(** * Finance dashboard: response normalizer and session state

    A shallow embedding of [src/app/page.tsx]: the function
    [parseAgentResponse], which turns the loosely typed payload of the agent
    gateway into a [FinancialReport], and the state cells and handlers of the
    [Page] component ([saveHistory], [handleSaveProfile], [handleAnalyze],
    [handleChatSend], [handleSampleToggle], [handleViewHistoryEntry]).

    The gateway payload is untyped at run time, so it is embedded as a
    JavaScript value and every property read goes through [get], which is
    what [x?.k] evaluates to. *)

From Stdlib Require Import String List ZArith QArith Bool Lia DecimalString.
Import ListNotations.
Open Scope string_scope.

(** ** JavaScript values *)

(** A JavaScript number.  The program never computes with numbers: it tests
    them for truthiness, for [typeof x === 'number'] and against [0], and
    otherwise passes them on.  A finite number is kept as the rational it
    denotes. *)
Inductive number : Type :=
| NaN
| Infinity (negative : bool)
| Finite (q : Q).

#[warnings="-register-all"]
Inductive value : Type :=
| JUndefined
| JNull
| JBool (b : bool)
| JNum (n : number)
| JStr (s : string)
| JArr (items : list value)
| JObj (fields : list (string * value)).

Definition num (z : Z) : value := JNum (Finite (inject_Z z)).

(** [ToBoolean] on numbers: [0], [-0] and [NaN] are falsy. *)
Definition number_truthy (n : number) : bool :=
  match n with
  | NaN => false
  | Infinity _ => true
  | Finite q => negb (Qnum q =? 0)%Z
  end.

(** [n > 0] *)
Definition number_gt0 (n : number) : bool :=
  match n with
  | NaN => false
  | Infinity negative => negb negative
  | Finite q => (0 <? Qnum q)%Z
  end.

(** [n <= 0] ([false] on [NaN], as every comparison with [NaN]) *)
Definition number_le0 (n : number) : bool :=
  match n with
  | NaN => false
  | Infinity negative => negative
  | Finite q => (Qnum q <=? 0)%Z
  end.

(** [ToBoolean]: what [if (x)], [!x], [x && y] and [x || y] test. *)
Definition truthy (v : value) : bool :=
  match v with
  | JUndefined | JNull => false
  | JBool b => b
  | JNum n => number_truthy n
  | JStr s => negb (s =? "")
  | JArr _ | JObj _ => true
  end.

Definition typeof (v : value) : string :=
  match v with
  | JUndefined => "undefined"
  | JNull => "object"
  | JBool _ => "boolean"
  | JNum _ => "number"
  | JStr _ => "string"
  | JArr _ | JObj _ => "object"
  end.

Definition Array_isArray (v : value) : bool :=
  match v with
  | JArr _ => true
  | _ => false
  end.

Fixpoint lookup (k : string) (fields : list (string * value)) : option value :=
  match fields with
  | [] => None
  | (k', v) :: rest => if k' =? k then Some v else lookup k rest
  end.

(** [x?.k], and [x.k] where [x] is known not to be [null] or [undefined].
    The keys the program reads ([success], [response], [result], [text],
    [message] and the report fields) are own properties of no primitive and
    of no array, so the read gives [undefined] on anything but an object. *)
Definition get (k : string) (v : value) : value :=
  match v with
  | JObj fields =>
      match lookup k fields with
      | Some x => x
      | None => JUndefined
      end
  | _ => JUndefined
  end.

(** [a ?? b] *)
Definition nullish (a b : value) : value :=
  match a with
  | JUndefined | JNull => b
  | _ => a
  end.

(** [key in obj] for an object literal or a parsed JSON object. *)
Definition has_key (k : string) (v : value) : bool :=
  match v with
  | JObj fields => existsb (fun kv => fst kv =? k) fields
  | _ => false
  end.

(** ** Types of the page *)

Record CreditCardProfile := {
  card_name : string;
  card_limit : number
}.

Record EMIProfile := {
  emi_name : string;
  emi_amount : number
}.

Record FixedExpenses := {
  rent : number;
  utilities : number;
  insurance : number
}.

Record FinancialProfile := {
  salary : number;
  cards : list CreditCardProfile;
  emis : list EMIProfile;
  fixedExpenses : FixedExpenses
}.

(** [FinancialReport].  The interface declares strings and typed records,
    but [parseAgentResponse] fills the fields with [as] casts, which check
    nothing at run time: such a field holds whatever value the payload had.
    Only the three arrays and [safe_to_spend] are tested before use. *)
Record FinancialReport := {
  report_type : value;
  income_summary : value;
  credit_cards : list value;
  category_breakdown : list value;
  risk_alerts : list value;
  safe_to_spend : number;
  analysis_period : value;
  advice : value;
  follow_up_response : value
}.

(** ** A serializer for closed examples

    [JSON.stringify] belongs to the JavaScript runtime; the development takes
    it as a parameter.  Closed examples need one instance: [stringify_sample]
    follows [JSON.stringify] on [null], booleans, integers, strings that need
    no escaping, arrays and objects.  It writes other finite numbers as a
    fraction and escapes nothing, which [JSON.stringify] does not; no example
    serializes such a value and no theorem depends on it. *)

Definition show_number (n : number) : string :=
  match n with
  | NaN | Infinity _ => "null"
  | Finite q =>
      let digits := NilZero.string_of_int (Z.to_int (Qnum q)) in
      match Qden q with
      | 1%positive => digits
      | d => digits ++ "/" ++ NilZero.string_of_int (Z.to_int (Zpos d))
      end
  end.

Definition join_comma (parts : list string) : string :=
  String.concat "," parts.

Definition quote (s : string) : string :=
  let dq := Ascii.ascii_of_nat 34 in
  String dq (s ++ String dq EmptyString).

Fixpoint show_value (v : value) : option string :=
  match v with
  | JUndefined => None
  | JNull => Some "null"
  | JBool true => Some "true"
  | JBool false => Some "false"
  | JNum n => Some (show_number n)
  | JStr s => Some (quote s)
  | JArr items =>
      let show_item x :=
        match show_value x with
        | Some s => s
        | None => "null"
        end in
      Some ("[" ++ join_comma (map show_item items) ++ "]")
  | JObj fields =>
      let show_field (kv : string * value) :=
        match show_value (snd kv) with
        | Some s => [quote (fst kv) ++ ":" ++ s]
        | None => []
        end in
      Some ("{" ++ join_comma (flat_map show_field fields) ++ "}")
  end.

Definition stringify_sample (v : value) : value :=
  match show_value v with
  | Some s => JStr s
  | None => JUndefined
  end.

Section Dashboard.

(** [JSON.stringify], a function of the runtime. *)
Variable JSON_stringify : value -> value.

(** ** parseAgentResponse *)

(** One unwrapping step:
    [if (data?.k && typeof data.k === 'object' && !Array.isArray(data.k)) data = data.k] *)
Definition unwrap (k : string) (data : value) : value :=
  if truthy (get k data) && (typeof (get k data) =? "object")
     && negb (Array_isArray (get k data))
  then get k data
  else data.

(** [data] as it stands when the fields are inspected. *)
Definition unwrapped (rawResult : value) : value :=
  unwrap "response" (unwrap "result" rawResult).

(** [data?.income_summary || data?.credit_cards || data?.category_breakdown] *)
Definition looks_structured (data : value) : bool :=
  truthy (get "income_summary" data)
  || truthy (get "credit_cards" data)
  || truthy (get "category_breakdown" data).

(** [Array.isArray(x) ? x : []] *)
Definition array_or_empty (v : value) : list value :=
  match v with
  | JArr items => items
  | _ => []
  end.

(** [typeof x === 'number' ? x : 0] *)
Definition number_or_zero (v : value) : number :=
  match v with
  | JNum n => n
  | _ => Finite 0
  end.

(** The object literal of the first [return]. *)
Definition structured_report (data : value) : FinancialReport := {|
  report_type := nullish (get "report_type" data) (JStr "Monthly Analysis");
  income_summary := nullish (get "income_summary" data) JNull;
  credit_cards := array_or_empty (get "credit_cards" data);
  category_breakdown := array_or_empty (get "category_breakdown" data);
  risk_alerts := array_or_empty (get "risk_alerts" data);
  safe_to_spend := number_or_zero (get "safe_to_spend" data);
  analysis_period := nullish (get "analysis_period" data) (JStr "Current Month");
  advice := nullish (get "advice" data) (JStr "");
  follow_up_response := nullish (get "follow_up_response" data) (JStr "")
|}.

(** [textResponse] *)
Definition text_response (rawResult : value) : value :=
  if typeof rawResult =? "string"
  then rawResult
  else nullish (nullish (get "text" rawResult) (get "message" rawResult))
               (JSON_stringify rawResult).

(** The object literal of the second [return]. *)
Definition conversational_report (textResponse : value) : FinancialReport := {|
  report_type := JStr "";
  income_summary := JNull;
  credit_cards := [];
  category_breakdown := [];
  risk_alerts := [];
  safe_to_spend := Finite 0;
  analysis_period := JStr "";
  advice := JStr "";
  follow_up_response := textResponse
|}.

(** [None] is the [null] the function returns. *)
Definition parseAgentResponse (result : value) : option FinancialReport :=
  if negb (truthy (get "success" result)) then None
  else
    let rawResult := get "result" (get "response" result) in
    if negb (truthy rawResult) then None
    else
      let data := unwrapped rawResult in
      if looks_structured data
      then Some (structured_report data)
      else Some (conversational_report (text_response rawResult)).

(** A success envelope around a payload:
    [{ success: true, response: { result: rawResult } }]. *)
Definition envelope (rawResult : value) : value :=
  JObj [("success", JBool true); ("response", JObj [("result", rawResult)])].

(** A wrapper object [{ k: inner }]. *)
Definition wrap (k : string) (inner : value) : value := JObj [(k, inner)].

(** ** State of the page *)

Definition MANAGER_AGENT_ID : string := "6992c20848cf09a10ff22202".

Inductive Tab := TabDashboard | TabProfile | TabHistory.

Definition Tab_eqb (a b : Tab) : bool :=
  match a, b with
  | TabDashboard, TabDashboard | TabProfile, TabProfile
  | TabHistory, TabHistory => true
  | _, _ => false
  end.

Inductive Role := user | agent.

(** [content] is declared a string; the agent's text comes out of
    [parseAgentResponse] unchecked, so it is a value. *)
Record ChatMessage := {
  role : Role;
  content : value;
  timestamp : Z
}.

(** [profile] is tested before use in [handleViewHistoryEntry]
    ([if (entry.profile)]): an entry read back from storage may lack it. *)
Record HistoryEntry := {
  entry_id : string;
  entry_date : string;
  entry_report : FinancialReport;
  entry_profile : option FinancialProfile
}.

(** What [Date.now()] and [new Date().toLocaleDateString(...)] give when an
    entry is made. *)
Record Clock := {
  now : Z;
  localeDate : string
}.

(** The message of a gateway call, before [JSON.stringify] for an analysis;
    a chat sends the user's text as it is. *)
Inductive Message :=
| analyze_finances (monthly_salary : number)
                   (credit_cards : list CreditCardProfile)
                   (emis : list EMIProfile)
                   (fixed_expenses : FixedExpenses)
                   (search_query : string)
| chat_text (text : string).

(** [callAIAgent(message, agentId, { session_id })] *)
Record GatewayCall := {
  message : Message;
  agentId : string;
  session_id : string
}.

(** What [JSON.parse(localStorage.getItem(key))] finds under a key that
    holds a non-empty item: text that does not parse, a value of another
    shape (not an array for the history, no object for the profile), or a
    document.  An empty item is not parsed at all ([if (savedHistory)] is
    false for the empty string as for [null]): it is a key without item. *)
Inductive Stored (A : Type) :=
| Unparseable
| OtherShape
| Doc (a : A).
Arguments Unparseable {A}.
Arguments OtherShape {A}.
Arguments Doc {A} a.

(** The two keys of [localStorage]: [None] when [getItem] gives [null] or
    the empty string, both falsy.  [writable] is [false] when [setItem]
    throws (quota exceeded, storage unavailable). *)
Record Storage := {
  finance_history : option (Stored (list HistoryEntry));
  finance_profile : option (Stored FinancialProfile);
  writable : bool
}.

(** The thirteen [useState] cells of [Page], then the world around them:
    the storage, the calls made to the gateway so far, and the calls not yet
    settled.  A pending analysis keeps the [profile] its closure captured. *)
Record State := {
  activeTab : Tab;
  profile : option FinancialProfile;
  hasProfile : bool;
  report : option FinancialReport;
  loading : bool;
  error : option string;
  chatOpen : bool;
  chatMessages : list ChatMessage;
  chatLoading : bool;
  history : list HistoryEntry;
  sampleMode : bool;
  activeAgentId : option string;
  sessionId : string;
  localStorage : Storage;
  calls : list GatewayCall;
  analyses_in_flight : list FinancialProfile;
  chats_in_flight : nat
}.

Definition setActiveTab (x : Tab) (s : State) : State :=
  {| activeTab := x; profile := profile s; hasProfile := hasProfile s;
     report := report s; loading := loading s; error := error s;
     chatOpen := chatOpen s; chatMessages := chatMessages s;
     chatLoading := chatLoading s; history := history s;
     sampleMode := sampleMode s; activeAgentId := activeAgentId s;
     sessionId := sessionId s; localStorage := localStorage s;
     calls := calls s; analyses_in_flight := analyses_in_flight s;
     chats_in_flight := chats_in_flight s |}.

Definition setProfile (x : option FinancialProfile) (s : State) : State :=
  {| activeTab := activeTab s; profile := x; hasProfile := hasProfile s;
     report := report s; loading := loading s; error := error s;
     chatOpen := chatOpen s; chatMessages := chatMessages s;
     chatLoading := chatLoading s; history := history s;
     sampleMode := sampleMode s; activeAgentId := activeAgentId s;
     sessionId := sessionId s; localStorage := localStorage s;
     calls := calls s; analyses_in_flight := analyses_in_flight s;
     chats_in_flight := chats_in_flight s |}.

Definition setHasProfile (x : bool) (s : State) : State :=
  {| activeTab := activeTab s; profile := profile s; hasProfile := x;
     report := report s; loading := loading s; error := error s;
     chatOpen := chatOpen s; chatMessages := chatMessages s;
     chatLoading := chatLoading s; history := history s;
     sampleMode := sampleMode s; activeAgentId := activeAgentId s;
     sessionId := sessionId s; localStorage := localStorage s;
     calls := calls s; analyses_in_flight := analyses_in_flight s;
     chats_in_flight := chats_in_flight s |}.

Definition setReport (x : option FinancialReport) (s : State) : State :=
  {| activeTab := activeTab s; profile := profile s;
     hasProfile := hasProfile s; report := x; loading := loading s;
     error := error s; chatOpen := chatOpen s;
     chatMessages := chatMessages s; chatLoading := chatLoading s;
     history := history s; sampleMode := sampleMode s;
     activeAgentId := activeAgentId s; sessionId := sessionId s;
     localStorage := localStorage s; calls := calls s;
     analyses_in_flight := analyses_in_flight s;
     chats_in_flight := chats_in_flight s |}.

Definition setLoading (x : bool) (s : State) : State :=
  {| activeTab := activeTab s; profile := profile s;
     hasProfile := hasProfile s; report := report s; loading := x;
     error := error s; chatOpen := chatOpen s;
     chatMessages := chatMessages s; chatLoading := chatLoading s;
     history := history s; sampleMode := sampleMode s;
     activeAgentId := activeAgentId s; sessionId := sessionId s;
     localStorage := localStorage s; calls := calls s;
     analyses_in_flight := analyses_in_flight s;
     chats_in_flight := chats_in_flight s |}.

Definition setError (x : option string) (s : State) : State :=
  {| activeTab := activeTab s; profile := profile s;
     hasProfile := hasProfile s; report := report s; loading := loading s;
     error := x; chatOpen := chatOpen s; chatMessages := chatMessages s;
     chatLoading := chatLoading s; history := history s;
     sampleMode := sampleMode s; activeAgentId := activeAgentId s;
     sessionId := sessionId s; localStorage := localStorage s;
     calls := calls s; analyses_in_flight := analyses_in_flight s;
     chats_in_flight := chats_in_flight s |}.

Definition setChatOpen (x : bool) (s : State) : State :=
  {| activeTab := activeTab s; profile := profile s;
     hasProfile := hasProfile s; report := report s; loading := loading s;
     error := error s; chatOpen := x; chatMessages := chatMessages s;
     chatLoading := chatLoading s; history := history s;
     sampleMode := sampleMode s; activeAgentId := activeAgentId s;
     sessionId := sessionId s; localStorage := localStorage s;
     calls := calls s; analyses_in_flight := analyses_in_flight s;
     chats_in_flight := chats_in_flight s |}.

Definition setChatMessages (x : list ChatMessage) (s : State) : State :=
  {| activeTab := activeTab s; profile := profile s;
     hasProfile := hasProfile s; report := report s; loading := loading s;
     error := error s; chatOpen := chatOpen s; chatMessages := x;
     chatLoading := chatLoading s; history := history s;
     sampleMode := sampleMode s; activeAgentId := activeAgentId s;
     sessionId := sessionId s; localStorage := localStorage s;
     calls := calls s; analyses_in_flight := analyses_in_flight s;
     chats_in_flight := chats_in_flight s |}.

Definition setChatLoading (x : bool) (s : State) : State :=
  {| activeTab := activeTab s; profile := profile s;
     hasProfile := hasProfile s; report := report s; loading := loading s;
     error := error s; chatOpen := chatOpen s;
     chatMessages := chatMessages s; chatLoading := x;
     history := history s; sampleMode := sampleMode s;
     activeAgentId := activeAgentId s; sessionId := sessionId s;
     localStorage := localStorage s; calls := calls s;
     analyses_in_flight := analyses_in_flight s;
     chats_in_flight := chats_in_flight s |}.

Definition setHistory (x : list HistoryEntry) (s : State) : State :=
  {| activeTab := activeTab s; profile := profile s;
     hasProfile := hasProfile s; report := report s; loading := loading s;
     error := error s; chatOpen := chatOpen s;
     chatMessages := chatMessages s; chatLoading := chatLoading s;
     history := x; sampleMode := sampleMode s;
     activeAgentId := activeAgentId s; sessionId := sessionId s;
     localStorage := localStorage s; calls := calls s;
     analyses_in_flight := analyses_in_flight s;
     chats_in_flight := chats_in_flight s |}.

Definition setSampleMode (x : bool) (s : State) : State :=
  {| activeTab := activeTab s; profile := profile s;
     hasProfile := hasProfile s; report := report s; loading := loading s;
     error := error s; chatOpen := chatOpen s;
     chatMessages := chatMessages s; chatLoading := chatLoading s;
     history := history s; sampleMode := x;
     activeAgentId := activeAgentId s; sessionId := sessionId s;
     localStorage := localStorage s; calls := calls s;
     analyses_in_flight := analyses_in_flight s;
     chats_in_flight := chats_in_flight s |}.

Definition setActiveAgentId (x : option string) (s : State) : State :=
  {| activeTab := activeTab s; profile := profile s;
     hasProfile := hasProfile s; report := report s; loading := loading s;
     error := error s; chatOpen := chatOpen s;
     chatMessages := chatMessages s; chatLoading := chatLoading s;
     history := history s; sampleMode := sampleMode s; activeAgentId := x;
     sessionId := sessionId s; localStorage := localStorage s;
     calls := calls s; analyses_in_flight := analyses_in_flight s;
     chats_in_flight := chats_in_flight s |}.

Definition setSessionId (x : string) (s : State) : State :=
  {| activeTab := activeTab s; profile := profile s;
     hasProfile := hasProfile s; report := report s; loading := loading s;
     error := error s; chatOpen := chatOpen s;
     chatMessages := chatMessages s; chatLoading := chatLoading s;
     history := history s; sampleMode := sampleMode s;
     activeAgentId := activeAgentId s; sessionId := x;
     localStorage := localStorage s; calls := calls s;
     analyses_in_flight := analyses_in_flight s;
     chats_in_flight := chats_in_flight s |}.

Definition with_localStorage (x : Storage) (s : State) : State :=
  {| activeTab := activeTab s; profile := profile s;
     hasProfile := hasProfile s; report := report s; loading := loading s;
     error := error s; chatOpen := chatOpen s;
     chatMessages := chatMessages s; chatLoading := chatLoading s;
     history := history s; sampleMode := sampleMode s;
     activeAgentId := activeAgentId s; sessionId := sessionId s;
     localStorage := x; calls := calls s;
     analyses_in_flight := analyses_in_flight s;
     chats_in_flight := chats_in_flight s |}.

Definition with_calls (x : list GatewayCall) (s : State) : State :=
  {| activeTab := activeTab s; profile := profile s;
     hasProfile := hasProfile s; report := report s; loading := loading s;
     error := error s; chatOpen := chatOpen s;
     chatMessages := chatMessages s; chatLoading := chatLoading s;
     history := history s; sampleMode := sampleMode s;
     activeAgentId := activeAgentId s; sessionId := sessionId s;
     localStorage := localStorage s; calls := x;
     analyses_in_flight := analyses_in_flight s;
     chats_in_flight := chats_in_flight s |}.

Definition with_analyses_in_flight (x : list FinancialProfile) (s : State) : State :=
  {| activeTab := activeTab s; profile := profile s;
     hasProfile := hasProfile s; report := report s; loading := loading s;
     error := error s; chatOpen := chatOpen s;
     chatMessages := chatMessages s; chatLoading := chatLoading s;
     history := history s; sampleMode := sampleMode s;
     activeAgentId := activeAgentId s; sessionId := sessionId s;
     localStorage := localStorage s; calls := calls s;
     analyses_in_flight := x; chats_in_flight := chats_in_flight s |}.

Definition with_chats_in_flight (x : nat) (s : State) : State :=
  {| activeTab := activeTab s; profile := profile s;
     hasProfile := hasProfile s; report := report s; loading := loading s;
     error := error s; chatOpen := chatOpen s;
     chatMessages := chatMessages s; chatLoading := chatLoading s;
     history := history s; sampleMode := sampleMode s;
     activeAgentId := activeAgentId s; sessionId := sessionId s;
     localStorage := localStorage s; calls := calls s;
     analyses_in_flight := analyses_in_flight s; chats_in_flight := x |}.

Notation "s |> f" := (f s) (at level 45, left associativity, only parsing).

(** ** Sample data *)

Definition dec (n : Z) (d : positive) : value := JNum (Finite (n # d)).

Definition SAMPLE_PROFILE : FinancialProfile := {|
  salary := Finite 8500;
  cards := [ {| card_name := "Chase Sapphire"; card_limit := Finite 15000 |};
             {| card_name := "Amex Gold"; card_limit := Finite 10000 |} ];
  emis := [ {| emi_name := "Car Loan"; emi_amount := Finite 450 |};
            {| emi_name := "Student Loan"; emi_amount := Finite 280 |} ];
  fixedExpenses := {| rent := Finite 1800; utilities := Finite 220;
                      insurance := Finite 180 |}
|}.

Definition sample_card (name : string) (limit spend : Z) (util : value) : value :=
  JObj [("card_name", JStr name); ("limit", num limit); ("spend", num spend);
        ("utilization_percent", util)].

Definition sample_category (name : string) (amount : Z) (pct : value)
    (count : Z) : value :=
  JObj [("category", JStr name); ("amount", num amount);
        ("percent_of_total", pct); ("transaction_count", num count)].

Definition sample_alert (kind text severity : string) : value :=
  JObj [("alert_type", JStr kind); ("message", JStr text);
        ("severity", JStr severity)].

Definition SAMPLE_REPORT : FinancialReport := {|
  report_type := JStr "Monthly Financial Analysis";
  income_summary :=
    JObj [("net_income", num 8500); ("total_fixed_expenses", num 2200);
          ("total_variable_expenses", num 2850); ("total_emi", num 730);
          ("total_outflow", num 5780); ("savings", num 2720);
          ("savings_rate", num 32)];
  credit_cards :=
    [ sample_card "Chase Sapphire" 15000 3200 (dec 213 10);
      sample_card "Amex Gold" 10000 1850 (dec 185 10) ];
  category_breakdown :=
    [ sample_category "Groceries" 680 (dec 132 10) 12;
      sample_category "Dining Out" 420 (dec 81 10) 8;
      sample_category "Transportation" 310 (num 6) 15;
      sample_category "Entertainment" 280 (dec 54 10) 6;
      sample_category "Shopping" 560 (dec 108 10) 9;
      sample_category "Subscriptions" 120 (dec 23 10) 5;
      sample_category "Healthcare" 240 (dec 46 10) 3;
      sample_category "Travel" 240 (dec 46 10) 2 ];
  risk_alerts :=
    [ sample_alert "Spending Trend"
        "Dining expenses increased 18% compared to last month" "medium";
      sample_alert "Budget Warning"
        "Entertainment spending is approaching your monthly average" "low";
      sample_alert "Credit Alert"
        "Chase Sapphire approaching 25% utilization threshold" "high" ];
  safe_to_spend := Finite 1420;
  analysis_period := JStr "January 2026";
  advice := JStr "Your savings rate of 32% is excellent. Consider reducing dining expenses which increased 18% this month. Your credit utilization remains healthy across both cards. Continue maintaining this disciplined approach to build your emergency fund.";
  follow_up_response := JStr ""
|}.

(** ** Handlers of the page *)

(** [localStorage.setItem(key, JSON.stringify(x))] inside
    [try { ... } catch { }].  The item is kept as the document it parses
    back to, taken to be [x]: that is what [JSON.stringify] and [JSON.parse]
    give on values JSON keeps (finite numbers, no [undefined]); [NaN] and
    the infinities are written as [null], so statements that compare a
    stored document with a live value assume JSON keeps the value. *)
Definition store_history (updated : list HistoryEntry) (st : Storage) : Storage :=
  if writable st
  then {| finance_history := Some (Doc updated);
          finance_profile := finance_profile st;
          writable := writable st |}
  else st.

Definition store_profile (p : FinancialProfile) (st : Storage) : Storage :=
  if writable st
  then {| finance_history := finance_history st;
          finance_profile := Some (Doc p);
          writable := writable st |}
  else st.

(** The entry [saveHistory] builds. *)
Definition new_entry (clock : Clock) (newReport : FinancialReport)
    (currentProfile : FinancialProfile) : HistoryEntry := {|
  entry_id := NilZero.string_of_int (Z.to_int (now clock));
  entry_date := localeDate clock;
  entry_report := newReport;
  entry_profile := Some currentProfile
|}.

(** [[entry, ...prev].slice(0, 20)] *)
Definition saveHistory (clock : Clock) (newReport : FinancialReport)
    (currentProfile : FinancialProfile) (s : State) : State :=
  let entry := new_entry clock newReport currentProfile in
  let updated := firstn 20 (entry :: history s) in
  s |> with_localStorage (store_history updated (localStorage s))
    |> setHistory updated.

Definition handleSaveProfile (p : FinancialProfile) (s : State) : State :=
  s |> setProfile (Some p)
    |> setHasProfile true
    |> setActiveTab TabDashboard
    |> with_localStorage (store_profile p (localStorage s)).

Definition analyze_message (p : FinancialProfile) : Message :=
  analyze_finances (salary p) (cards p) (emis p) (fixedExpenses p)
    "credit card transaction alert statement".

(** [handleAnalyze] up to its [await]: the guard, the three setters and the
    call. *)
Definition handleAnalyze (s : State) : State :=
  match profile s with
  | None => s
  | Some p =>
      s |> setLoading true
        |> setError None
        |> setActiveAgentId (Some MANAGER_AGENT_ID)
        |> with_calls (calls s ++ [ {| message := analyze_message p;
                                       agentId := MANAGER_AGENT_ID;
                                       session_id := sessionId s |} ])
        |> with_analyses_in_flight (analyses_in_flight s ++ [p])
  end.

(** How an awaited call settles: the promise resolves with an envelope, or
    rejects; [reason] is [err.message] when [err instanceof Error]. *)
Inductive Outcome :=
| Resolved (result : value)
| Rejected (reason : option string).

(** [handleAnalyze] after its [await]; [p] is the [profile] of the closure. *)
Definition handleAnalyze_settled (clock : Clock) (p : FinancialProfile)
    (o : Outcome) (s : State) : State :=
  let s1 :=
    match o with
    | Resolved result =>
        match parseAgentResponse result with
        | Some parsed => s |> setReport (Some parsed) |> saveHistory clock parsed p
        | None =>
            s |> setError
                   (Some "Could not parse the financial analysis. Please try again.")
        end
    | Rejected reason =>
        s |> setError (Some match reason with
                            | Some msg => msg
                            | None => "An error occurred during analysis."
                            end)
    end in
  s1 |> setLoading false |> setActiveAgentId None.

(** [handleChatSend] up to its [await]. *)
Definition handleChatSend (time : Z) (userMessage : string) (s : State) : State :=
  s |> setChatMessages (chatMessages s ++
         [ {| role := user; content := JStr userMessage; timestamp := time |} ])
    |> setChatLoading true
    |> setActiveAgentId (Some MANAGER_AGENT_ID)
    |> with_calls (calls s ++ [ {| message := chat_text userMessage;
                                   agentId := MANAGER_AGENT_ID;
                                   session_id := sessionId s |} ])
    |> with_chats_in_flight (S (chats_in_flight s)).

(** [a || b] *)
Definition or_else (a b : value) : value := if truthy a then a else b.

(** [parsed?.field] *)
Definition field_of (f : FinancialReport -> value)
    (parsed : option FinancialReport) : value :=
  match parsed with
  | Some r => f r
  | None => JUndefined
  end.

Definition responseText (parsed : option FinancialReport) (result : value) : value :=
  or_else (or_else (or_else (field_of follow_up_response parsed)
                            (field_of advice parsed))
                   (get "message" (get "response" result)))
          (JStr "I was unable to process your request. Please try again.").

(** [handleChatSend] after its [await]. *)
Definition handleChatSend_settled (time : Z) (o : Outcome) (s : State) : State :=
  let s1 :=
    match o with
    | Resolved result =>
        let parsed := parseAgentResponse result in
        let s' :=
          s |> setChatMessages (chatMessages s ++
                 [ {| role := agent; content := responseText parsed result;
                      timestamp := time |} ]) in
        match parsed with
        | Some r => if truthy (income_summary r) then s' |> setReport (Some r) else s'
        | None => s'
        end
    | Rejected _ =>
        s |> setChatMessages (chatMessages s ++
               [ {| role := agent;
                    content := JStr "Sorry, an error occurred. Please try again.";
                    timestamp := time |} ])
    end in
  s1 |> setChatLoading false |> setActiveAgentId None.

Definition handleSampleToggle (checked : bool) (s : State) : State :=
  let s1 := s |> setSampleMode checked in
  if checked
  then
    (if negb (hasProfile s)
     then s1 |> setProfile (Some SAMPLE_PROFILE) |> setHasProfile true
     else s1)
    |> setReport (Some SAMPLE_REPORT)
  else s1 |> setReport None.

Definition handleViewHistoryEntry (entry : HistoryEntry) (s : State) : State :=
  let s1 := s |> setReport (Some (entry_report entry)) in
  match entry_profile entry with
  | Some p => s1 |> setProfile (Some p) |> setHasProfile true
  | None => s1
  end
  |> setActiveTab TabDashboard.

(** The initial values of the cells, over a given storage. *)
Definition initial (store : Storage) : State := {|
  activeTab := TabDashboard;
  profile := None;
  hasProfile := false;
  report := None;
  loading := false;
  error := None;
  chatOpen := false;
  chatMessages := [];
  chatLoading := false;
  history := [];
  sampleMode := false;
  activeAgentId := None;
  sessionId := "";
  localStorage := store;
  calls := [];
  analyses_in_flight := [];
  chats_in_flight := 0
|}.

(** The mount effect.  [session] is the identifier built from the time and
    a random suffix.  Both reads sit in one [try]: when the history item does
    not parse, the [catch] is reached before the profile is looked at. *)
Definition startup (session : string) (s : State) : State :=
  let s0 := s |> setSessionId session in
  match finance_history (localStorage s) with
  | Some Unparseable => s0
  | savedHistory =>
      let s1 :=
        match savedHistory with
        | Some (Doc parsed) => s0 |> setHistory parsed
        | _ => s0
        end in
      match finance_profile (localStorage s) with
      | Some (Doc parsed) =>
          if number_truthy (salary parsed)
          then s1 |> setProfile (Some parsed) |> setHasProfile true
          else s1
      | _ => s1
      end
  end.

(** ** What the page renders *)

Inductive Screen := SetupScreen | ProfileScreen | MainScreen.

(** The three [return]s of [Page]. *)
Definition screen (s : State) : Screen :=
  if negb (hasProfile s) && negb (Tab_eqb (activeTab s) TabProfile)
  then SetupScreen
  else if Tab_eqb (activeTab s) TabProfile then ProfileScreen
  else MainScreen.

(** The props [DashboardView] reads for its buttons. *)
Record DashboardProps := {
  props_report : option FinancialReport;
  props_loading : bool;
  props_error : option string
}.

(** Where [DashboardView] is rendered, and with which props. *)
Definition dashboardView (s : State) : option DashboardProps :=
  match screen s with
  | SetupScreen =>
      if sampleMode s
      then Some {| props_report := Some SAMPLE_REPORT; props_loading := false;
                   props_error := None |}
      else None
  | ProfileScreen => None
  | MainScreen =>
      Some {| props_report := report s; props_loading := loading s;
              props_error := error s |}
  end.

(** [error && ...]: the empty string is falsy. *)
Definition error_shown (e : option string) : bool :=
  match e with
  | Some msg => negb (msg =? "")
  | None => false
  end.

(** Some button with [onClick={onAnalyze}] is rendered and enabled: Try
    Again under [error], Analyze My Finances under [!loading && !report],
    Re-analyze under [!loading && report] and [report.report_type], the last
    two with [disabled={loading}]. *)
Definition analyze_button (p : DashboardProps) : bool :=
  error_shown (props_error p)
  || match props_report p with
     | None => negb (props_loading p) && negb (props_loading p)
     | Some r =>
         negb (props_loading p) && truthy (report_type r)
         && negb (props_loading p)
     end.

Definition can_analyze (s : State) : bool :=
  match dashboardView s with
  | Some p => analyze_button p
  | None => false
  end.

(** [ProfileForm] is rendered, and its button is enabled for [form]:
    [disabled={form.salary <= 0}]. *)
Definition can_save (form : FinancialProfile) (s : State) : bool :=
  match screen s with
  | SetupScreen => negb (sampleMode s)
  | ProfileScreen => true
  | MainScreen => false
  end
  && negb (number_le0 (salary form)).

(** [ChatPanel] is rendered open, and either a suggestion is shown (no
    message yet) or [handleSend] lets the text through. *)
Definition can_chat (text : string) (s : State) : bool :=
  match screen s with
  | ProfileScreen => false
  | _ => chatOpen s
  end
  && (match chatMessages s with [] => true | _ => false end
      || (negb (chatLoading s) && negb (text =? ""))).

Fixpoint remove_nth {A : Type} (i : nat) (l : list A) : list A :=
  match i, l with
  | _, [] => []
  | O, _ :: rest => rest
  | S j, x :: rest => x :: remove_nth j rest
  end.

(** ** Events *)

Inductive Event :=
| ClickAnalyze
| AnalysisSettles (i : nat) (clock : Clock) (o : Outcome)
| ChatSend (time : Z) (text : string)
| ChatSettles (time : Z) (o : Outcome)
| SaveProfile (form : FinancialProfile)
| SampleToggle (checked : bool)
| ViewHistoryEntry (i : nat)
| SetActiveTab (tab : Tab)
| SetChatOpen (open : bool).

(** One event on the page as rendered from [s]; [None] when the page offers
    no such event in [s].  Which tab panel is visible inside [DashboardView]
    is decided by the tabs component and is not constrained here. *)
Definition step (ev : Event) (s : State) : option State :=
  match ev with
  | ClickAnalyze =>
      if can_analyze s then Some (handleAnalyze s) else None
  | AnalysisSettles i clock o =>
      match nth_error (analyses_in_flight s) i with
      | Some p =>
          Some (s |> with_analyses_in_flight (remove_nth i (analyses_in_flight s))
                  |> handleAnalyze_settled clock p o)
      | None => None
      end
  | ChatSend time text =>
      if can_chat text s then Some (handleChatSend time text s) else None
  | ChatSettles time o =>
      match chats_in_flight s with
      | S n => Some (s |> with_chats_in_flight n |> handleChatSend_settled time o)
      | O => None
      end
  | SaveProfile form =>
      if can_save form s then Some (handleSaveProfile form s) else None
  | SampleToggle checked => Some (handleSampleToggle checked s)
  | ViewHistoryEntry i =>
      match dashboardView s, nth_error (history s) i with
      | Some _, Some entry => Some (handleViewHistoryEntry entry s)
      | _, _ => None
      end
  | SetActiveTab tab =>
      match dashboardView s, screen s with
      | Some _, _ => Some (s |> setActiveTab tab)
      | None, ProfileScreen => Some (s |> setActiveTab tab)
      | None, _ => None
      end
  | SetChatOpen open => Some (s |> setChatOpen open)
  end.

(** States the page can be in: the mount effect over any storage, then any
    events. *)
Inductive reachable : State -> Prop :=
| reachable_startup (store : Storage) (session : string) :
    reachable (startup session (initial store))
| reachable_step (s s' : State) (ev : Event) :
    reachable s -> step ev s = Some s' -> reachable s'.

(** [N] successful analyses, one after the other: what each appends. *)
Definition record_all (runs : list (Clock * FinancialReport * FinancialProfile))
    (s : State) : State :=
  fold_left (fun acc run =>
               match run with
               | (clock, r, p) => saveHistory clock r p acc
               end) runs s.

Definition entry_of (run : Clock * FinancialReport * FinancialProfile)
    : HistoryEntry :=
  match run with
  | (clock, r, p) => new_entry clock r p
  end.

(** The calls that ask for an analysis. *)
Definition is_analysis (c : GatewayCall) : bool :=
  match message c with
  | analyze_finances _ _ _ _ _ => true
  | chat_text _ => false
  end.

Definition analysis_calls (s : State) : list GatewayCall :=
  filter is_analysis (calls s).

(** ** Concrete inputs *)

(** A payload whose [income_summary] key is there and holds [null]. *)
Definition null_income_payload : value :=
  JObj [("income_summary", JNull); ("safe_to_spend", num 5)].

(** A payload with one card and no [income_summary]. *)
Definition cards_only_payload : value :=
  JObj [("credit_cards",
         JArr [JObj [("card_name", JStr "X"); ("limit", num 1000);
                     ("spend", num (-50));
                     ("utilization_percent", JStr "bad")]])].

(** A payload with an [income_summary] object. *)
Definition income_payload : value :=
  JObj [("income_summary", JObj [("net_income", num 8500)])].

(** A conversational payload under a [result] wrapper. *)
Definition wrapped_text_payload : value :=
  wrap "result" (JObj [("text", JStr "hi")]).

Definition no_expenses : FixedExpenses :=
  {| rent := Finite 0; utilities := Finite 0; insurance := Finite 0 |}.

(** A well-typed profile whose salary is negative. *)
Definition negative_salary_profile : FinancialProfile :=
  {| salary := Finite (-100); cards := []; emis := [];
     fixedExpenses := no_expenses |}.

Definition empty_storage : Storage :=
  {| finance_history := None; finance_profile := None; writable := true |}.

(** A storage whose profile item holds [negative_salary_profile]. *)
Definition negative_salary_storage : Storage :=
  {| finance_history := None;
     finance_profile := Some (Doc negative_salary_profile);
     writable := true |}.

(** A storage whose profile item holds the sample profile. *)
Definition sample_storage : Storage :=
  {| finance_history := None;
     finance_profile := Some (Doc SAMPLE_PROFILE);
     writable := true |}.

Definition clock_at (n : nat) : Clock :=
  {| now := Z.of_nat n; localeDate := "January 1, 2026" |}.

(** Twenty-one analyses, at times 0 to 20. *)
Definition twenty_one_runs : list (Clock * FinancialReport * FinancialProfile) :=
  map (fun n => (clock_at n, SAMPLE_REPORT, SAMPLE_PROFILE)) (seq 0 21).

(** What holds of the analysis cells in every reachable state. *)
Definition in_flight_invariant (s : State) : Prop :=
  (sampleMode s = true -> hasProfile s = true)
  /\ (loading s = true -> error s = None)
  /\ (if loading s
      then exists p, analyses_in_flight s = [p]
      else analyses_in_flight s = []).

(** ** Shapes of reports *)

(** The result payload of an envelope, [result?.response?.result]. *)
Definition payload (result : value) : value :=
  get "result" (get "response" result).

(** Every field but [follow_up_response] is at its empty or zero value. *)
Definition is_conversational (r : FinancialReport) : Prop :=
  r = conversational_report (follow_up_response r).

(** [r] is the permissive copy of [data]: each recognised field is the
    payload's when it has the expected type, and its default otherwise. *)
Definition permissive_copy (data : value) (r : FinancialReport) : Prop :=
  (forall fields, get "income_summary" data = JObj fields ->
                  income_summary r = JObj fields)
  /\ (nullish (get "income_summary" data) JNull = JNull ->
      income_summary r = JNull)
  /\ (forall items, get "credit_cards" data = JArr items -> credit_cards r = items)
  /\ (Array_isArray (get "credit_cards" data) = false -> credit_cards r = [])
  /\ (forall items, get "category_breakdown" data = JArr items ->
                    category_breakdown r = items)
  /\ (Array_isArray (get "category_breakdown" data) = false ->
      category_breakdown r = [])
  /\ (forall items, get "risk_alerts" data = JArr items -> risk_alerts r = items)
  /\ (Array_isArray (get "risk_alerts" data) = false -> risk_alerts r = [])
  /\ (forall n, get "safe_to_spend" data = JNum n -> safe_to_spend r = n)
  /\ (typeof (get "safe_to_spend" data) <> "number" -> safe_to_spend r = Finite 0)
  /\ (get "report_type" data = JUndefined -> report_type r = JStr "Monthly Analysis")
  /\ (get "analysis_period" data = JUndefined ->
      analysis_period r = JStr "Current Month")
  /\ (get "advice" data = JUndefined -> advice r = JStr "")
  /\ (get "follow_up_response" data = JUndefined -> follow_up_response r = JStr "").

(** [text] is what the priority order picks from [rawResult]: the payload
    itself when it is a string, else its [text], else its [message], else
    its serialization; a field counts when it is neither [null] nor
    [undefined]. *)
Definition picked_by_priority (rawResult text : value) : Prop :=
  (forall s, rawResult = JStr s -> text = rawResult)
  /\ (typeof rawResult <> "string" ->
      (nullish (get "text" rawResult) JNull <> JNull ->
       text = get "text" rawResult)
      /\ (nullish (get "text" rawResult) JNull = JNull ->
          nullish (get "message" rawResult) JNull <> JNull ->
          text = get "message" rawResult)
      /\ (nullish (get "text" rawResult) JNull = JNull ->
          nullish (get "message" rawResult) JNull = JNull ->
          text = JSON_stringify rawResult)).


(** ** Runs of the page *)

(** Events one after the other; [None] as soon as the page does not offer
    the next one. *)
Fixpoint run (evs : list Event) (s : State) : option State :=
  match evs with
  | [] => Some s
  | ev :: rest =>
      match step ev s with
      | Some s' => run rest s'
      | None => None
      end
  end.

(** What holds of the profile, chat and agent cells in every reachable
    state. *)
Definition page_invariant (s : State) : Prop :=
  (hasProfile s = true <-> profile s <> None)
  /\ (if chatLoading s
      then chats_in_flight s = 1%nat /\ chatMessages s <> []
      else chats_in_flight s = 0%nat)
  /\ Forall (fun c => agentId c = MANAGER_AGENT_ID
                      /\ session_id c = sessionId s) (calls s)
  /\ (activeAgentId s = None
      \/ (activeAgentId s = Some MANAGER_AGENT_ID
          /\ (loading s = true \/ chatLoading s = true))).

(** A history document held in storage is the history the page shows. *)
Definition storage_mirrors_history (s : State) : Prop :=
  writable (localStorage s) = true ->
  forall h, finance_history (localStorage s) = Some (Doc h) -> history s = h.

Definition is_finite (n : number) : bool :=
  match n with
  | Finite _ => true
  | _ => false
  end.

(** Every number of the profile is finite, so [JSON.stringify] keeps it
    (it writes [NaN] and the infinities as [null]). *)
Definition profile_numbers_finite (p : FinancialProfile) : bool :=
  is_finite (salary p)
  && forallb (fun c => is_finite (card_limit c)) (cards p)
  && forallb (fun e => is_finite (emi_amount e)) (emis p)
  && is_finite (rent (fixedExpenses p))
  && is_finite (utilities (fixedExpenses p))
  && is_finite (insurance (fixedExpenses p)).

(** ** The agent status panel *)

Record Agent := {
  agent_id : string;
  agent_name : string;
  agent_purpose : string
}.

Definition AGENTS : list Agent :=
  [ {| agent_id := "6992c20848cf09a10ff22202";
       agent_name := "Finance Coordinator";
       agent_purpose := "Coordinates analysis workflow" |};
    {| agent_id := "6992c1d9db29f3a7c1dd9945";
       agent_name := "Email Transaction Agent";
       agent_purpose := "Fetches Gmail transactions" |};
    {| agent_id := "6992c1f11de6d4d0944ce377";
       agent_name := "Financial Analyst";
       agent_purpose := "Analyzes spending patterns" |} ].

(** [activeAgentId === agent.id] *)
Definition agent_active (active : option string) (a : Agent) : bool :=
  match active with
  | Some i => i =? agent_id a
  | None => false
  end.

(** [AgentStatusPanel]: each agent's name with whether its dot pulses. *)
Definition AgentStatusPanel (active : option string) : list (string * bool) :=
  map (fun a => (agent_name a, agent_active active a)) AGENTS.

(** ** The profile form *)

(** [parseFloat], a function of the runtime. *)
Variable parseFloat : string -> number.

(** [parseFloat(val) || 0] *)
Definition parseFloat_or_zero (val : string) : number :=
  if number_truthy (parseFloat val) then parseFloat val else Finite 0.

Fixpoint map_index {A B : Type} (f : A -> nat -> B) (i : nat) (l : list A)
    : list B :=
  match l with
  | [] => []
  | x :: rest => f x i :: map_index f (S i) rest
  end.

Fixpoint filter_index {A : Type} (keep : A -> nat -> bool) (i : nat)
    (l : list A) : list A :=
  match l with
  | [] => []
  | x :: rest =>
      if keep x i then x :: filter_index keep (S i) rest
      else filter_index keep (S i) rest
  end.

Definition with_cards (x : list CreditCardProfile) (form : FinancialProfile)
    : FinancialProfile :=
  {| salary := salary form; cards := x; emis := emis form;
     fixedExpenses := fixedExpenses form |}.

Definition with_emis (x : list EMIProfile) (form : FinancialProfile)
    : FinancialProfile :=
  {| salary := salary form; cards := cards form; emis := x;
     fixedExpenses := fixedExpenses form |}.

Definition updateSalary (val : string) (form : FinancialProfile)
    : FinancialProfile :=
  {| salary := parseFloat_or_zero val; cards := cards form; emis := emis form;
     fixedExpenses := fixedExpenses form |}.

Definition addCard (form : FinancialProfile) : FinancialProfile :=
  with_cards (cards form ++ [ {| card_name := ""; card_limit := Finite 0 |} ])
    form.

(** [prev.cards.filter((_, i) => i !== idx)] *)
Definition removeCard (idx : nat) (form : FinancialProfile) : FinancialProfile :=
  with_cards (filter_index (fun _ i => negb (i =? idx)%nat) 0 (cards form)) form.

Inductive CardField := card_field_name | card_field_limit.

Definition updateCard (idx : nat) (field : CardField) (val : string)
    (form : FinancialProfile) : FinancialProfile :=
  with_cards
    (map_index
       (fun c i =>
          if (i =? idx)%nat
          then match field with
               | card_field_limit =>
                   {| card_name := card_name c;
                      card_limit := parseFloat_or_zero val |}
               | card_field_name =>
                   {| card_name := val; card_limit := card_limit c |}
               end
          else c)
       0 (cards form))
    form.

Definition addEMI (form : FinancialProfile) : FinancialProfile :=
  with_emis (emis form ++ [ {| emi_name := ""; emi_amount := Finite 0 |} ]) form.

Definition removeEMI (idx : nat) (form : FinancialProfile) : FinancialProfile :=
  with_emis (filter_index (fun _ i => negb (i =? idx)%nat) 0 (emis form)) form.

Inductive EMIField := emi_field_name | emi_field_amount.

Definition updateEMI (idx : nat) (field : EMIField) (val : string)
    (form : FinancialProfile) : FinancialProfile :=
  with_emis
    (map_index
       (fun e i =>
          if (i =? idx)%nat
          then match field with
               | emi_field_amount =>
                   {| emi_name := emi_name e;
                      emi_amount := parseFloat_or_zero val |}
               | emi_field_name =>
                   {| emi_name := val; emi_amount := emi_amount e |}
               end
          else e)
       0 (emis form))
    form.

Inductive FixedField := field_rent | field_utilities | field_insurance.

Definition updateFixed (field : FixedField) (val : string)
    (form : FinancialProfile) : FinancialProfile :=
  {| salary := salary form; cards := cards form; emis := emis form;
     fixedExpenses :=
       match field with
       | field_rent =>
           {| rent := parseFloat_or_zero val;
              utilities := utilities (fixedExpenses form);
              insurance := insurance (fixedExpenses form) |}
       | field_utilities =>
           {| rent := rent (fixedExpenses form);
              utilities := parseFloat_or_zero val;
              insurance := insurance (fixedExpenses form) |}
       | field_insurance =>
           {| rent := rent (fixedExpenses form);
              utilities := utilities (fixedExpenses form);
              insurance := parseFloat_or_zero val |}
       end |}.

(** One edit of the form. *)
Inductive FormEdit :=
| EditSalary (val : string)
| AddCard
| RemoveCard (idx : nat)
| EditCard (idx : nat) (field : CardField) (val : string)
| AddEMI
| RemoveEMI (idx : nat)
| EditEMI (idx : nat) (field : EMIField) (val : string)
| EditFixed (field : FixedField) (val : string).

Definition edit (e : FormEdit) (form : FinancialProfile) : FinancialProfile :=
  match e with
  | EditSalary val => updateSalary val form
  | AddCard => addCard form
  | RemoveCard idx => removeCard idx form
  | EditCard idx field val => updateCard idx field val form
  | AddEMI => addEMI form
  | RemoveEMI idx => removeEMI idx form
  | EditEMI idx field val => updateEMI idx field val form
  | EditFixed field val => updateFixed field val form
  end.

(** The form that [ProfileForm] starts from when no profile exists. *)
Definition empty_form : FinancialProfile :=
  {| salary := Finite 0; cards := []; emis := [];
     fixedExpenses := {| rent := Finite 0; utilities := Finite 0;
                         insurance := Finite 0 |} |}.

Definition is_NaN (n : number) : bool :=
  match n with
  | NaN => true
  | _ => false
  end.

(** No number of the form is [NaN]. *)
Definition form_has_no_NaN (form : FinancialProfile) : bool :=
  negb (is_NaN (salary form))
  && forallb (fun c => negb (is_NaN (card_limit c))) (cards form)
  && forallb (fun e => negb (is_NaN (emi_amount e))) (emis form)
  && negb (is_NaN (rent (fixedExpenses form)))
  && negb (is_NaN (utilities (fixedExpenses form)))
  && negb (is_NaN (insurance (fixedExpenses form))).

(** [disabled={form.salary <= 0}] *)
Definition save_disabled (form : FinancialProfile) : bool :=
  number_le0 (salary form).

(** A reader for closed examples, in the place of [parseFloat]: the
    decimal digits at the head of the text as an integer, [NaN] when the
    text starts with none.  [parseFloat] also reads white space, a sign, a
    fraction and an exponent; no theorem depends on the reader. *)
Definition digit_of (c : Ascii.ascii) : option Z :=
  let n := Z.of_nat (Ascii.nat_of_ascii c) in
  if ((48 <=? n) && (n <=? 57))%Z then Some (n - 48)%Z else None.

Fixpoint read_digits (acc : Z) (s : string) : Z :=
  match s with
  | EmptyString => acc
  | String c rest =>
      match digit_of c with
      | Some n => read_digits (10 * acc + n) rest
      | None => acc
      end
  end.

Definition parseFloat_sample (s : string) : number :=
  match s with
  | EmptyString => NaN
  | String c _ =>
      match digit_of c with
      | Some _ => Finite (inject_Z (read_digits 0 s))
      | None => NaN
      end
  end.

(** ** Colours *)

(** [n < k] for an integer constant [k] *)
Definition number_lt (n : number) (k : Z) : bool :=
  match n with
  | NaN => false
  | Infinity negative => negative
  | Finite q => (Qnum q <? k * Zpos (Qden q))%Z
  end.

Definition getUtilizationColor (percent : number) : string :=
  if number_lt percent 30 then "bg-green-500"
  else if number_lt percent 60 then "bg-yellow-500"
  else "bg-red-500".

Definition getUtilizationTextColor (percent : number) : string :=
  if number_lt percent 30 then "text-green-700"
  else if number_lt percent 60 then "text-yellow-700"
  else "text-red-700".

(** [String.prototype.toLowerCase], a function of the runtime. *)
Variable toLowerCase : string -> string.

(** [severity] is declared a string and read as [severity ?? '']. *)
Definition getSeverityColor (severity : option string) : string :=
  let s := toLowerCase match severity with Some x => x | None => "" end in
  if s =? "high" then "border-red-400 bg-red-50 text-red-800"
  else if s =? "medium" then "border-yellow-400 bg-yellow-50 text-yellow-800"
  else "border-blue-400 bg-blue-50 text-blue-800".

Definition getSeverityIconColor (severity : option string) : string :=
  let s := toLowerCase match severity with Some x => x | None => "" end in
  if s =? "high" then "text-red-500"
  else if s =? "medium" then "text-yellow-500"
  else "text-blue-500".

(** ** Sorting the category table *)

Inductive SortKey := amount | percent_of_total | transaction_count.
Inductive SortDir := asc | desc.

Definition SortKey_eqb (a b : SortKey) : bool :=
  match a, b with
  | amount, amount | percent_of_total, percent_of_total
  | transaction_count, transaction_count => true
  | _, _ => false
  end.

(** The two [useState] cells of [CategoryBreakdownCard]. *)
Record SortState := {
  sortKey : SortKey;
  sortDir : SortDir
}.

Definition initial_sort : SortState := {| sortKey := amount; sortDir := desc |}.

Definition handleSort (key : SortKey) (st : SortState) : SortState :=
  if SortKey_eqb (sortKey st) key
  then {| sortKey := sortKey st;
          sortDir := match sortDir st with desc => asc | asc => desc end |}
  else {| sortKey := key; sortDir := desc |}.

(** ** The markdown renderer

    The renderer looks at single characters ([\s], [\d], [.], [trim]), so
    its text is kept as JavaScript has it, a sequence of UTF-16 code units. *)

Definition jsstring : Type := list N.

(** The code units of an ASCII literal. *)
Definition units (s : string) : jsstring :=
  map Ascii.N_of_ascii (list_ascii_of_string s).

(** LF, CR, LS, PS: what [.] does not match. *)
Definition is_line_terminator (c : N) : bool :=
  ((c =? 10) || (c =? 13) || (c =? 8232) || (c =? 8233))%N.

(** [\s], which is also what [trim] removes: white space and line
    terminators. *)
Definition is_space (c : N) : bool :=
  (((9 <=? c) && (c <=? 13)) || (c =? 32) || (c =? 160) || (c =? 5760)
   || ((8192 <=? c) && (c <=? 8202)) || (c =? 8232) || (c =? 8233)
   || (c =? 8239) || (c =? 8287) || (c =? 12288) || (c =? 65279))%N.

(** [\d] *)
Definition is_digit (c : N) : bool := ((48 <=? c) && (c <=? 57))%N.

Definition star : N := 42%N.

Fixpoint startsWith (prefix s : jsstring) : bool :=
  match prefix, s with
  | [], _ => true
  | p :: prefix', c :: s' => (p =? c)%N && startsWith prefix' s'
  | _ :: _, [] => false
  end.

(** [(.*?)\*\*] matches at the head of [s]: two stars come before any line
    terminator. *)
Fixpoint closes (s : jsstring) : bool :=
  match s with
  | [] => false
  | c :: rest =>
      match rest with
      | [] => false
      | d :: _ =>
          if ((c =? star) && (d =? star))%N then true
          else if is_line_terminator c then false
          else closes rest
      end
  end.

(** [text.split(/\*\*(.*?)\*\*/g)], read left to right.  Outside a match,
    two stars open one when [closes] holds of what follows; inside, the
    first two stars close it (the quantifier is lazy).  [acc] is the part
    being read, last unit first. *)
Fixpoint split_bold (inside : bool) (acc : jsstring) (s : jsstring)
    : list jsstring :=
  match s with
  | [] => [rev acc]
  | c :: rest =>
      match rest with
      | [] => [rev (c :: acc)]
      | d :: rest2 =>
          if ((c =? star) && (d =? star))%N && (inside || closes rest2)
          then rev acc :: split_bold (negb inside) [] rest2
          else split_bold inside (c :: acc) rest
      end
  end.

Definition split_parts (text : jsstring) : list jsstring :=
  split_bold false [] text.

Inductive InlineNode :=
| Fragment (part : jsstring)
| Strong (part : jsstring).

(** What [formatInline] returns: the text itself, or an array of nodes. *)
Inductive Inline :=
| InlineText (text : jsstring)
| InlineNodes (nodes : list InlineNode).

Definition formatInline (text : jsstring) : Inline :=
  let parts := split_parts text in
  if (length parts =? 1)%nat then InlineText text
  else InlineNodes
         (map_index (fun part i => if Nat.odd i then Strong part
                                   else Fragment part) 0 parts).

(** [text.split('\n')] *)
Fixpoint split_lines (text : jsstring) : list jsstring :=
  match text with
  | [] => [[]]
  | c :: rest =>
      if (c =? 10)%N then [] :: split_lines rest
      else match split_lines rest with
           | line :: lines => (c :: line) :: lines
           | [] => [[c]]
           end
  end.

Fixpoint drop_digits (s : jsstring) : jsstring :=
  match s with
  | [] => []
  | c :: rest => if is_digit c then drop_digits rest else s
  end.

(** [/^\d+\.\s/]: what follows the match, when the line has one. *)
Definition after_number (line : jsstring) : option jsstring :=
  match line with
  | c :: rest =>
      if is_digit c
      then match drop_digits rest with
           | dot :: sp :: rest' =>
               if (dot =? 46)%N && is_space sp then Some rest' else None
           | _ => None
           end
      else None
  | [] => None
  end.

Inductive Block :=
| H4 (text : jsstring)
| H3 (text : jsstring)
| H2 (text : jsstring)
| LiDisc (body : Inline)
| LiDecimal (body : Inline)
| Spacer
| Paragraph (body : Inline).

(** The chain of [if]s inside [text.split('\n').map]. *)
Definition render_line (line : jsstring) : Block :=
  if startsWith (units "### ") line then H4 (skipn 4 line)
  else if startsWith (units "## ") line then H3 (skipn 3 line)
  else if startsWith (units "# ") line then H2 (skipn 2 line)
  else if startsWith (units "- ") line || startsWith (units "* ") line
  then LiDisc (formatInline (skipn 2 line))
  else match after_number line with
       | Some rest => LiDecimal (formatInline rest)
       | None =>
           if forallb is_space line then Spacer
           else Paragraph (formatInline line)
       end.

(** [None] is the [null] returned for an empty text. *)
Definition renderMarkdown (text : jsstring) : option (list Block) :=
  match text with
  | [] => None
  | _ => Some (map render_line (split_lines text))
  end.

(** The parts of a split put back together, the stars around every second
    one. *)
Fixpoint join_bold (parts : list jsstring) : jsstring :=
  match parts with
  | [] => []
  | [plain] => plain
  | plain :: bold :: rest =>
      (plain ++ [star; star] ++ bold ++ [star; star] ++ join_bold rest)%list
  end.

(** [s] holds two stars next to each other. *)
Fixpoint has_two_stars (s : jsstring) : bool :=
  match s with
  | [] => false
  | c :: rest =>
      match rest with
      | [] => false
      | d :: _ => ((c =? star) && (d =? star))%N || has_two_stars rest
      end
  end.

(** The parts at odd positions, which [formatInline] renders in bold. *)
Fixpoint bold_parts (parts : list jsstring) : list jsstring :=
  match parts with
  | _ :: bold :: rest => bold :: bold_parts rest
  | _ => []
  end.

(** Inside a match: the units read before the closing stars. *)
Fixpoint take_bold (s : jsstring) : jsstring :=
  match s with
  | [] => []
  | c :: rest =>
      match rest with
      | [] => [c]
      | d :: _ =>
          if ((c =? star) && (d =? star))%N then [] else c :: take_bold rest
      end
  end.

(** Inside a match: what follows the closing stars. *)
Fixpoint after_bold (s : jsstring) : jsstring :=
  match s with
  | [] => []
  | c :: rest =>
      match rest with
      | [] => []
      | d :: rest2 =>
          if ((c =? star) && (d =? star))%N then rest2 else after_bold rest
      end
  end.

(** Lines put back together, a line feed between two of them. *)
Fixpoint join_lines (lines : list jsstring) : jsstring :=
  match lines with
  | [] => []
  | line :: rest =>
      match rest with
      | [] => line
      | _ :: _ => (line ++ 10%N :: join_lines rest)%list
      end
  end.

(** What a bold part may hold: no two stars in a row, no line terminator. *)
Definition bold_text (b : jsstring) : Prop :=
  has_two_stars b = false
  /\ forallb (fun c => negb (is_line_terminator c)) b = true.

(** ** More concrete inputs *)

(** The page over the sample storage, after a click on Analyze, the chat
    being opened, and a chat message. *)
Definition busy_run : list Event :=
  [ClickAnalyze; SetChatOpen true; ChatSend 1 "hi"].

Definition busy_page : State :=
  handleChatSend 1 "hi"
    (setChatOpen true
       (handleAnalyze (startup "session_0" (initial sample_storage)))).

(** The page over the sample storage with an analysis in flight. *)
Definition loading_page : State :=
  handleAnalyze (startup "session_0" (initial sample_storage)).

(** The sample storage, full: [setItem] throws. *)
Definition full_storage : Storage :=
  {| finance_history := None;
     finance_profile := Some (Doc SAMPLE_PROFILE);
     writable := false |}.

Definition analysis_run : list Event :=
  [ClickAnalyze;
   AnalysisSettles 0 (clock_at 1) (Resolved (envelope income_payload))].

Definition analysed_over (store : Storage) : State :=
  handleAnalyze_settled (clock_at 1) SAMPLE_PROFILE
    (Resolved (envelope income_payload))
    (with_analyses_in_flight []
       (handleAnalyze (startup "session_0" (initial store)))).

(** A storage whose history item does not parse, beside a valid profile. *)
Definition corrupt_history_storage : Storage :=
  {| finance_history := Some Unparseable;
     finance_profile := Some (Doc SAMPLE_PROFILE);
     writable := true |}.

(** A storage whose profile has salary 0. *)
Definition zero_salary_storage : Storage :=
  {| finance_history := None;
     finance_profile := Some (Doc empty_form);
     writable := true |}.

Definition sample_edits : list FormEdit :=
  [EditSalary "8500"; AddCard; EditCard 0 card_field_name "Visa";
   EditCard 0 card_field_limit "abc"; AddEMI; RemoveEMI 0;
   EditFixed field_rent "1800"].

(** ** Wrappers with other keys *)







(** ** Values that JSON keeps *)

(** [JSON.parse(JSON.stringify(v))] gives [v] back: no [undefined], and no
    [NaN] or infinity, which are written as [null]. *)
Fixpoint json_value (v : value) : bool :=
  match v with
  | JUndefined => false
  | JNull | JBool _ | JStr _ => true
  | JNum n => is_finite n
  | JArr items => forallb json_value items
  | JObj fields => forallb (fun kv => json_value (snd kv)) fields
  end.

Definition report_json_safe (r : FinancialReport) : bool :=
  json_value (report_type r)
  && json_value (income_summary r)
  && forallb json_value (credit_cards r)
  && forallb json_value (category_breakdown r)
  && forallb json_value (risk_alerts r)
  && is_finite (safe_to_spend r)
  && json_value (analysis_period r)
  && json_value (advice r)
  && json_value (follow_up_response r).

Definition entry_json_safe (e : HistoryEntry) : bool :=
  report_json_safe (entry_report e)
  && match entry_profile e with
     | Some p => profile_numbers_finite p
     | None => true
     end.

(** ** A stored history of 25 entries *)

Definition twenty_five_entries : list HistoryEntry :=
  map (fun n => new_entry (clock_at n) SAMPLE_REPORT SAMPLE_PROFILE) (seq 0 25).

Definition oversized_storage : Storage :=
  {| finance_history := Some (Doc twenty_five_entries);
     finance_profile := Some (Doc SAMPLE_PROFILE);
     writable := true |}.

(** ** Lemmas on the normalizer *)


Lemma has_key_get k data : has_key k data = false -> get k data = JUndefined.
Proof.
  destruct data; try reflexivity. cbn.
  induction fields as [|[k' v] rest IH]; cbn; [reflexivity|].
  destruct (k' =? k); cbn; [discriminate|exact IH].
Qed.

(** A payload with none of the three keys does not look structured. *)
Lemma key_free_not_structured data :
  has_key "income_summary" data = false ->
  has_key "credit_cards" data = false ->
  has_key "category_breakdown" data = false ->
  looks_structured data = false.
Proof.
  intros H1 H2 H3. unfold looks_structured.
  now rewrite (has_key_get _ _ H1), (has_key_get _ _ H2), (has_key_get _ _ H3).
Qed.

Lemma looks_structured_truthy rawResult :
  looks_structured (unwrapped rawResult) = true -> truthy rawResult = true.
Proof.
  intros H. destruct rawResult; try reflexivity;
    unfold unwrapped in H; cbn in H; discriminate.
Qed.

Lemma parse_structured result :
  truthy (get "success" result) = true ->
  looks_structured (unwrapped (payload result)) = true ->
  parseAgentResponse result
  = Some (structured_report (unwrapped (payload result))).
Proof.
  intros Hok Hs. unfold parseAgentResponse. fold (payload result).
  rewrite Hok, (looks_structured_truthy _ Hs), Hs. reflexivity.
Qed.

Lemma parse_conversational result :
  truthy (get "success" result) = true ->
  truthy (payload result) = true ->
  looks_structured (unwrapped (payload result)) = false ->
  parseAgentResponse result
  = Some (conversational_report (text_response (payload result))).
Proof.
  intros Hok Ht Hs. unfold parseAgentResponse. fold (payload result).
  rewrite Hok, Ht, Hs. reflexivity.
Qed.

Lemma structured_report_copy data : permissive_copy data (structured_report data).
Proof.
  unfold permissive_copy, structured_report; cbn.
  repeat split.
  - intros fields H; now rewrite H.
  - intros H; exact H.
  - intros items H; now rewrite H.
  - destruct (get "credit_cards" data); cbn; congruence.
  - intros items H; now rewrite H.
  - destruct (get "category_breakdown" data); cbn; congruence.
  - intros items H; now rewrite H.
  - destruct (get "risk_alerts" data); cbn; congruence.
  - intros n H; now rewrite H.
  - destruct (get "safe_to_spend" data); cbn; congruence.
  - intros H; now rewrite H.
  - intros H; now rewrite H.
  - intros H; now rewrite H.
  - intros H; now rewrite H.
Qed.

Lemma text_response_priority rawResult :
  picked_by_priority rawResult (text_response rawResult).
Proof.
  unfold picked_by_priority, text_response. split.
  - intros s ->. reflexivity.
  - intros Hns.
    destruct (String.eqb_spec (typeof rawResult) "string") as [E|_];
      [contradiction|].
    destruct (get "text" rawResult); cbn; repeat split; try congruence;
      destruct (get "message" rawResult); cbn; congruence.
Qed.




Lemma payload_envelope rawResult : payload (envelope rawResult) = rawResult.
Proof. reflexivity. Qed.

Lemma success_envelope rawResult : truthy (get "success" (envelope rawResult)) = true.
Proof. reflexivity. Qed.

(** ** The normalizer: theorems *)

(** C5.  For every envelope whose [success] is [false], and for every
    envelope whose result payload is missing ([undefined] or [null]),
    [parseAgentResponse] returns [null], never a default report. *)
Theorem parse_failure_or_no_payload_is_null (result : value) :
  get "success" result = JBool false
  \/ nullish (payload result) JNull = JNull ->
  parseAgentResponse result = None.
Proof.
  intros [Hfail | Hnone]; unfold parseAgentResponse.
  - now rewrite Hfail.
  - fold (payload result).
    destruct (truthy (get "success" result)); [|reflexivity].
    destruct (payload result); cbn in *; congruence.
Qed.

(** C1 (amended).  For every successful envelope whose payload, after
    unwrapping, holds a truthy value under at least one of [income_summary],
    [credit_cards], [category_breakdown] (whichever of the three), the
    function returns a report that is the permissive copy of the unwrapped
    payload: [income_summary] as given when it is an object and [null] when
    absent, each array field as given when it is an array and empty
    otherwise, [safe_to_spend] as given when it is a number and [0]
    otherwise, the string fields at their placeholders when absent. *)
Theorem parse_structured_when_truthy_key (result : value) :
  truthy (get "success" result) = true ->
  truthy (get "income_summary" (unwrapped (payload result))) = true
  \/ truthy (get "credit_cards" (unwrapped (payload result))) = true
  \/ truthy (get "category_breakdown" (unwrapped (payload result))) = true ->
  exists r,
    parseAgentResponse result = Some r
    /\ permissive_copy (unwrapped (payload result)) r.
Proof.
  intros Hok Hkey.
  exists (structured_report (unwrapped (payload result))). split.
  - apply parse_structured; [exact Hok|].
    unfold looks_structured.
    destruct Hkey as [H | [H | H]]; rewrite H;
      repeat rewrite orb_true_r; reflexivity.
  - apply structured_report_copy.
Qed.

(** C4 (amended).  Every non-null report comes from one of the two
    [return]s: either the unwrapped payload holds a truthy [income_summary],
    [credit_cards] or [category_breakdown] and the report is its permissive
    copy, whose [income_summary] is non-null whenever the payload's is
    truthy (and null when only one of the other two keys was there), or the
    report is conversational, every field but [follow_up_response] at its
    empty or zero value. *)
Theorem parse_report_shape (result : value) (r : FinancialReport) :
  parseAgentResponse result = Some r ->
  (looks_structured (unwrapped (payload result)) = true
   /\ r = structured_report (unwrapped (payload result))
   /\ (truthy (get "income_summary" (unwrapped (payload result))) = true ->
       income_summary r <> JNull))
  \/ (looks_structured (unwrapped (payload result)) = false
      /\ is_conversational r).
Proof.
  unfold parseAgentResponse. fold (payload result).
  destruct (truthy (get "success" result)); [|discriminate].
  destruct (truthy (payload result)); [|discriminate]. cbn.
  destruct (looks_structured (unwrapped (payload result))) eqn:Hs;
    intros [= <-].
  - left. repeat split. cbn.
    destruct (get "income_summary" (unwrapped (payload result)));
      cbn; congruence.
  - right. split; reflexivity.
Qed.

(** C6 (amended).  For every successful envelope whose payload is truthy
    and, after unwrapping, holds no truthy value under [income_summary],
    [credit_cards] or [category_breakdown], the function returns a report
    whose only field off its default is [follow_up_response], picked from
    the payload as received: the payload itself when it is a string, else
    its [text], else its [message], else [JSON.stringify] of the payload. *)
Theorem parse_conversational_priority (result : value) :
  truthy (get "success" result) = true ->
  truthy (payload result) = true ->
  looks_structured (unwrapped (payload result)) = false ->
  exists r,
    parseAgentResponse result = Some r
    /\ is_conversational r
    /\ picked_by_priority (payload result) (follow_up_response r).
Proof.
  intros Hok Ht Hs.
  exists (conversational_report (text_response (payload result))).
  split; [now apply parse_conversational|].
  split; [reflexivity|].
  apply text_response_priority.
Qed.


(** ** The history store *)

Lemma firstn_app_firstn {A : Type} (n : nat) (a b : list A) :
  firstn n (a ++ firstn n b) = firstn n (a ++ b).
Proof.
  rewrite !firstn_app, firstn_firstn.
  now replace (Nat.min (n - length a) n) with (n - length a)%nat by lia.
Qed.

Lemma history_saveHistory clock r p s :
  history (saveHistory clock r p s) = firstn 20 (new_entry clock r p :: history s).
Proof. reflexivity. Qed.

Lemma record_all_snoc runs run s :
  record_all (runs ++ [run]) s
  = saveHistory (fst (fst run)) (snd (fst run)) (snd run) (record_all runs s).
Proof.
  unfold record_all. rewrite fold_left_app. now destruct run as [[clock r] p].
Qed.

Lemma history_record_all runs s :
  runs <> [] ->
  history (record_all runs s)
  = firstn 20 (map entry_of (rev runs) ++ history s).
Proof.
  induction runs as [|run runs IH] using rev_ind; [congruence|]. intros _.
  rewrite record_all_snoc, history_saveHistory, rev_unit.
  destruct run as [[clock r] p]. cbn [fst snd map entry_of app].
  destruct runs as [|run0 runs0].
  - reflexivity.
  - rewrite IH by discriminate.
    change (new_entry clock r p :: ?l) with ([new_entry clock r p] ++ l)%list.
    now rewrite firstn_app_firstn.
Qed.

Lemma analysis_success_history clock p result r s :
  parseAgentResponse result = Some r ->
  history (handleAnalyze_settled clock p (Resolved result) s)
  = history (saveHistory clock r p s).
Proof. intros H. unfold handleAnalyze_settled. now rewrite H. Qed.

(** X28.  Started on a history of at most 20 entries, or after one or
    more successful analyses, the history holds at most 20 entries; after
    more than 20 successful analyses it holds exactly the entries of the 20
    most recent ones, newest first, each once and in order, so without
    repetition when the analyses' entries are distinct. *)
Theorem history_capped_newest_first
    (runs : list (Clock * FinancialReport * FinancialProfile)) (s : State) :
  (length (history s) <= 20)%nat \/ runs <> [] ->
  (length (history (record_all runs s)) <= 20)%nat
  /\ ((20 < length runs)%nat ->
      history (record_all runs s) = map entry_of (firstn 20 (rev runs))
      /\ length (history (record_all runs s)) = 20%nat
      /\ (NoDup (map entry_of runs) -> NoDup (history (record_all runs s)))).
Proof.
  intros Hstart.
  assert (Hcap : (length (history (record_all runs s)) <= 20)%nat).
  { destruct runs as [|run runs].
    - destruct Hstart as [H|H]; [exact H|congruence].
    - rewrite history_record_all by discriminate. apply firstn_le_length. }
  split; [exact Hcap|]. intros Hmany.
  assert (Heq : history (record_all runs s)
                = map entry_of (firstn 20 (rev runs))).
  { rewrite history_record_all by (destruct runs; cbn in *; [lia|discriminate]).
    rewrite firstn_app, length_map, length_rev.
    replace (20 - length runs)%nat with 0%nat by lia.
    rewrite firstn_O, app_nil_r. apply firstn_map. }
  split; [exact Heq|]. split.
  - rewrite Heq, length_map, length_firstn, length_rev. lia.
  - intros Hnd. rewrite Heq, <- firstn_map, map_rev.
    apply NoDup_rev in Hnd.
    rewrite <- (firstn_skipn 20 (rev (map entry_of runs))) in Hnd.
    now apply NoDup_app_remove_r in Hnd.
Qed.

(** ** Selecting a history entry *)

(** C10.  For every history entry, selecting it a second time changes
    nothing: the state after two selections is the state after one, so the
    active report and the active profile are the same; the history, the
    storage and the calls made or pending at the gateway are as they were
    before the first selection. *)
Theorem view_history_entry_idempotent (entry : HistoryEntry) (s : State) :
  let s1 := handleViewHistoryEntry entry s in
  let s2 := handleViewHistoryEntry entry s1 in
  s2 = s1
  /\ report s2 = report s1
  /\ profile s2 = profile s1
  /\ report s1 = Some (entry_report entry)
  /\ history s1 = history s /\ history s2 = history s
  /\ localStorage s2 = localStorage s
  /\ calls s1 = calls s /\ calls s2 = calls s
  /\ analyses_in_flight s2 = analyses_in_flight s
  /\ chats_in_flight s2 = chats_in_flight s.
Proof.
  unfold handleViewHistoryEntry.
  destruct (entry_profile entry) as [p|]; cbn; repeat split; reflexivity.
Qed.

(** ** Chat replies and the report slot *)

(** C2 (amended).  For every chat reply that normalizes to a report with a
    truthy [income_summary], the page writes that report into the report
    cell, the one cell a successful analysis writes; unlike the analysis
    path it appends no history entry and writes nothing to storage, and it
    leaves [loading] and [error] as they were. *)
Theorem chat_reply_replaces_report
    (time : Z) (clock : Clock) (p : FinancialProfile)
    (result : value) (r : FinancialReport) (s : State) :
  parseAgentResponse result = Some r ->
  truthy (income_summary r) = true ->
  let chat := handleChatSend_settled time (Resolved result) s in
  let analysis := handleAnalyze_settled clock p (Resolved result) s in
  report chat = Some r
  /\ report analysis = Some r
  /\ history chat = history s
  /\ localStorage chat = localStorage s
  /\ loading chat = loading s
  /\ error chat = error s
  /\ history analysis = firstn 20 (new_entry clock r p :: history s).
Proof.
  intros Hparse Hincome.
  unfold handleChatSend_settled, handleAnalyze_settled.
  rewrite Hparse, Hincome. cbn. repeat split; reflexivity.
Qed.

(** ** One analysis at a time *)

Lemma invariant_startup store session :
  in_flight_invariant (startup session (initial store)).
Proof.
  unfold startup, in_flight_invariant.
  cbn [initial localStorage].
  destruct (finance_history store) as [[| |h]|];
    destruct (finance_profile store) as [[| |p]|];
    cbn; try destruct (number_truthy (salary p)); cbn;
    repeat split; congruence.
Qed.

Lemma can_analyze_idle s :
  in_flight_invariant s -> can_analyze s = true -> loading s = false.
Proof.
  intros (Hsample & Herr & _) Hcan.
  destruct (loading s) eqn:Hl; [|reflexivity].
  unfold can_analyze, dashboardView, screen in Hcan.
  rewrite Hl in Hcan.
  destruct (hasProfile s) eqn:Hp; cbn in Hcan.
  - destruct (Tab_eqb (activeTab s) TabProfile); [discriminate|].
    unfold analyze_button in Hcan. cbn in Hcan.
    rewrite (Herr eq_refl) in Hcan. cbn in Hcan.
    destruct (report s); discriminate.
  - destruct (sampleMode s) eqn:Hs.
    + specialize (Hsample eq_refl). congruence.
    + destruct (Tab_eqb (activeTab s) TabProfile); discriminate.
Qed.

Lemma settled_cells clock p o s :
  let s' := handleAnalyze_settled clock p o s in
  loading s' = false
  /\ sampleMode s' = sampleMode s /\ hasProfile s' = hasProfile s
  /\ analyses_in_flight s' = analyses_in_flight s
  /\ calls s' = calls s.
Proof.
  unfold handleAnalyze_settled.
  destruct o as [result|reason];
    [destruct (parseAgentResponse result)|]; cbn; repeat split; reflexivity.
Qed.

Lemma chat_settled_cells time o s :
  let s' := handleChatSend_settled time o s in
  loading s' = loading s /\ error s' = error s
  /\ sampleMode s' = sampleMode s /\ hasProfile s' = hasProfile s
  /\ analyses_in_flight s' = analyses_in_flight s
  /\ calls s' = calls s.
Proof.
  unfold handleChatSend_settled.
  destruct o as [result|reason];
    [destruct (parseAgentResponse result) as [r|];
     [destruct (truthy (income_summary r))|]|];
    cbn; repeat split; reflexivity.
Qed.

(** Replace the cells of a settled call by the cells of the state before;
    [pat] binds the equations of [settled_cells] or [chat_settled_cells]. *)
Tactic Notation "settled_cells_as" simple_intropattern(pat) :=
  match goal with
  | |- context [handleAnalyze_settled ?c ?q ?o ?t] =>
      destruct (settled_cells c q o t) as pat
  | |- context [handleChatSend_settled ?c ?o ?t] =>
      destruct (chat_settled_cells c o t) as pat
  end;
  cbv zeta in *.

Lemma invariant_step ev s s' :
  in_flight_invariant s -> step ev s = Some s' -> in_flight_invariant s'.
Proof.
  intros Hinv Hstep. pose proof Hinv as (Hsample & Herr & Hfl).
  destruct ev; cbn in Hstep.
  - (* ClickAnalyze *)
    destruct (can_analyze s) eqn:Hcan; [|discriminate].
    injection Hstep as <-.
    pose proof (can_analyze_idle _ Hinv Hcan) as Hidle.
    rewrite Hidle in Hfl.
    unfold handleAnalyze. destruct (profile s) as [p|]; [|exact Hinv].
    unfold in_flight_invariant; cbn. rewrite Hfl.
    repeat split; auto. now exists p.
  - (* AnalysisSettles *)
    destruct (nth_error (analyses_in_flight s) i) as [p|] eqn:Hnth;
      [|discriminate].
    injection Hstep as <-.
    destruct (loading s) eqn:Hl.
    + destruct Hfl as [p0 Hone]. rewrite Hone in Hnth |- *.
      destruct i as [|[|j]]; cbn in Hnth; try discriminate.
      unfold in_flight_invariant.
      settled_cells_as (El & Es & Eh & Ea & _).
      rewrite El, Es, Eh, Ea. cbn.
      repeat split; [exact Hsample | discriminate].
    + rewrite Hfl in Hnth. destruct i; discriminate.
  - (* ChatSend *)
    destruct (can_chat text s); [|discriminate].
    injection Hstep as <-. exact Hinv.
  - (* ChatSettles *)
    destruct (chats_in_flight s) as [|n]; [discriminate|].
    injection Hstep as <-.
    unfold in_flight_invariant.
    settled_cells_as (El & Ee & Es & Eh & Ea & _).
    rewrite El, Ee, Es, Eh, Ea. exact Hinv.
  - (* SaveProfile *)
    destruct (can_save form s); [|discriminate].
    injection Hstep as <-.
    unfold in_flight_invariant; cbn. repeat split; auto.
  - (* SampleToggle *)
    injection Hstep as <-.
    unfold in_flight_invariant, handleSampleToggle.
    destruct checked, (hasProfile s) eqn:Hp; cbn;
      repeat split; auto; try discriminate.
  - (* ViewHistoryEntry *)
    destruct (dashboardView s); [|discriminate].
    destruct (nth_error (history s) i) as [entry|]; [|discriminate].
    injection Hstep as <-.
    unfold in_flight_invariant, handleViewHistoryEntry.
    destruct (entry_profile entry); cbn; repeat split; auto.
  - (* SetActiveTab *)
    assert (s' = setActiveTab tab s) as ->.
    { destruct (dashboardView s), (screen s); congruence. }
    exact Hinv.
  - (* SetChatOpen *)
    injection Hstep as <-. exact Hinv.
Qed.

Lemma reachable_invariant s : reachable s -> in_flight_invariant s.
Proof.
  induction 1 as [store session | s s' ev _ IH Hstep].
  - apply invariant_startup.
  - exact (invariant_step _ _ _ IH Hstep).
Qed.

Lemma analysis_calls_chat c l :
  is_analysis c = false -> filter is_analysis (l ++ [c]) = filter is_analysis l.
Proof. intros H. rewrite filter_app. cbn. rewrite H. apply app_nil_r. Qed.

Lemma busy_step_keeps_analysis_calls ev s s' :
  in_flight_invariant s -> loading s = true -> step ev s = Some s' ->
  analysis_calls s' = analysis_calls s.
Proof.
  intros Hinv Hbusy Hstep. unfold analysis_calls.
  destruct ev; cbn in Hstep.
  - destruct (can_analyze s) eqn:Hcan; [|discriminate].
    rewrite (can_analyze_idle _ Hinv Hcan) in Hbusy. discriminate.
  - destruct (nth_error (analyses_in_flight s) i) as [p|]; [|discriminate].
    injection Hstep as <-.
    settled_cells_as (_ & _ & _ & _ & Ec). now rewrite Ec.
  - destruct (can_chat text s); [|discriminate].
    injection Hstep as <-. cbn. now apply analysis_calls_chat.
  - destruct (chats_in_flight s) as [|n]; [discriminate|].
    injection Hstep as <-.
    settled_cells_as (_ & _ & _ & _ & _ & Ec). now rewrite Ec.
  - destruct (can_save form s); [|discriminate]. now injection Hstep as <-.
  - injection Hstep as <-. unfold handleSampleToggle.
    destruct checked, (hasProfile s); reflexivity.
  - destruct (dashboardView s); [|discriminate].
    destruct (nth_error (history s) i) as [entry|]; [|discriminate].
    injection Hstep as <-. unfold handleViewHistoryEntry.
    destruct (entry_profile entry); reflexivity.
  - assert (s' = setActiveTab tab s) as ->.
    { destruct (dashboardView s), (screen s); congruence. }
    reflexivity.
  - now injection Hstep as <-.
Qed.

(** C8.  In every reachable state at most one analysis request is in
    flight, and the busy flag is set while one is.  While the flag is set
    the page offers no analyze button, so the analyze event cannot happen,
    and no event that can happen issues an analysis request. *)
Theorem one_analysis_in_flight (s : State) :
  reachable s ->
  (length (analyses_in_flight s) <= 1)%nat
  /\ (analyses_in_flight s <> [] -> loading s = true)
  /\ (loading s = true ->
      can_analyze s = false
      /\ step ClickAnalyze s = None
      /\ forall ev s', step ev s = Some s' ->
                       analysis_calls s' = analysis_calls s).
Proof.
  intros Hreach. pose proof (reachable_invariant _ Hreach) as Hinv.
  pose proof Hinv as (_ & _ & Hfl).
  split; [|split].
  - destruct (loading s); [destruct Hfl as [p ->]|rewrite Hfl]; cbn; lia.
  - destruct (loading s); [reflexivity|]. intros Hne. now rewrite Hfl in Hne.
  - intros Hbusy.
    assert (Hoff : can_analyze s = false).
    { destruct (can_analyze s) eqn:Hcan; [|reflexivity].
      rewrite (can_analyze_idle _ Hinv Hcan) in Hbusy. discriminate. }
    split; [exact Hoff|]. split.
    + cbn. now rewrite Hoff.
    + intros ev s' Hstep.
      exact (busy_step_keeps_analysis_calls _ _ _ Hinv Hbusy Hstep).
Qed.

(** ** Profiles restored from storage *)

(** The setup form lets a profile through only when its salary is not
    [<= 0]. *)
Lemma saved_profile_salary form s :
  can_save form s = true -> number_le0 (salary form) = false.
Proof.
  unfold can_save. intros H. apply andb_prop in H as [_ H].
  now apply negb_true_iff in H.
Qed.

(** The mount effect lets a stored profile through when its salary is
    truthy. *)
Lemma restored_profile_salary store session p :
  profile (startup session (initial store)) = Some p ->
  number_truthy (salary p) = true.
Proof.
  unfold startup. cbn [initial localStorage].
  destruct (finance_history store) as [[| |h]|];
    destruct (finance_profile store) as [[| |q]|]; cbn; try discriminate;
    destruct (number_truthy (salary q)) eqn:Hq; cbn; congruence.
Qed.

(** C9.  A stored profile with salary [-100] passes the guard of the mount
    effect ([parsed?.salary] is truthy), the dashboard then offers Analyze My
    Finances, and the click sends an analysis request with
    [monthly_salary = -100], a salary that is not greater than 0. *)
Theorem restored_negative_salary_is_analyzed :
  let s0 := startup "session_0" (initial negative_salary_storage) in
  reachable s0
  /\ profile s0 = Some negative_salary_profile
  /\ number_gt0 (salary negative_salary_profile) = false
  /\ can_analyze s0 = true
  /\ exists s1,
       step ClickAnalyze s0 = Some s1
       /\ reachable s1
       /\ calls s1 = [ {| message := analyze_finances (Finite (-100)) [] []
                                       no_expenses
                                       "credit card transaction alert statement";
                          agentId := MANAGER_AGENT_ID;
                          session_id := "session_0" |} ]
       /\ analysis_calls s1 = calls s1.
Proof.
  cbv zeta.
  assert (Hstart : reachable
                     (startup "session_0" (initial negative_salary_storage)))
    by apply reachable_startup.
  repeat split; try reflexivity; try exact Hstart.
  eexists. split; [reflexivity|]. repeat split; try reflexivity.
  apply (reachable_step _ _ ClickAnalyze Hstart). reflexivity.
Qed.

(** ** More on the normalizer *)

(** X1.  The function returns [null] exactly when the envelope's [success] is
    falsy or its result payload is falsy (missing, [null], [false], [0],
    [NaN] or the empty string); every other envelope gives a report. *)
Theorem parse_null_iff (result : value) :
  parseAgentResponse result = None
  <-> truthy (get "success" result) = false
      \/ truthy (payload result) = false.
Proof.
  unfold parseAgentResponse. fold (payload result).
  destruct (truthy (get "success" result)); cbn; [|tauto].
  destruct (truthy (payload result)); cbn; [|tauto].
  destruct (looks_structured (unwrapped (payload result)));
    split; intros H; try discriminate; destruct H; discriminate.
Qed.

(** ** More on the page: profile, chat and agent cells *)

(** Case analysis on how a call settled, down to the two branches of
    [parseAgentResponse] and of the [income_summary] test. *)
Ltac settle_cases o :=
  unfold handleAnalyze_settled, handleChatSend_settled;
  destruct o;
  repeat match goal with
         | |- context [match parseAgentResponse ?x with _ => _ end] =>
             destruct (parseAgentResponse x)
         | |- context [if truthy (income_summary ?r) then _ else _] =>
             destruct (truthy (income_summary r))
         end;
  cbn.

Lemma page_invariant_startup store session :
  page_invariant (startup session (initial store)).
Proof.
  unfold startup, page_invariant. cbn [initial localStorage].
  destruct (finance_history store) as [[| |h]|];
    destruct (finance_profile store) as [[| |p]|];
    cbn; try destruct (number_truthy (salary p)); cbn;
    repeat split; auto; try congruence; try discriminate.
Qed.

Lemma Forall_calls_snoc (P : GatewayCall -> Prop) l c :
  Forall P l -> P c -> Forall P (l ++ [c]).
Proof. intros Hl Hc. apply Forall_app. split; [exact Hl|]. now constructor. Qed.

Lemma page_invariant_step ev s s' :
  page_invariant s -> step ev s = Some s' -> page_invariant s'.
Proof.
  intros Hinv Hstep. pose proof Hinv as (Hprof & Hchat & Hcalls & Hagent).
  destruct ev; cbn in Hstep.
  - (* ClickAnalyze *)
    destruct (can_analyze s); [|discriminate]. injection Hstep as <-.
    unfold handleAnalyze. destruct (profile s) as [p|] eqn:Hp; [|exact Hinv].
    unfold page_invariant; cbn. rewrite Hp.
    split; [exact Hprof|]. split; [exact Hchat|]. split.
    + apply Forall_calls_snoc; [exact Hcalls|]. now split.
    + right. split; [reflexivity|]. now left.
  - (* AnalysisSettles *)
    destruct (nth_error (analyses_in_flight s) i) as [p|]; [|discriminate].
    injection Hstep as <-.
    unfold page_invariant. settle_cases o;
      (split; [exact Hprof|]; split; [exact Hchat|]; split;
       [exact Hcalls|now left]).
  - (* ChatSend *)
    destruct (can_chat text s) eqn:Hcan; [|discriminate].
    injection Hstep as <-.
    unfold page_invariant, handleChatSend; cbn.
    split; [exact Hprof|]. split; [|split].
    + assert (Hidle : chats_in_flight s = 0%nat).
      { unfold can_chat in Hcan.
        destruct (chatLoading s); [|exact Hchat].
        destruct Hchat as [_ Hne].
        destruct (chatMessages s); [congruence|].
        cbn in Hcan. now rewrite andb_false_r in Hcan. }
      rewrite Hidle. split; [reflexivity|].
      intros Habs. now apply app_eq_nil in Habs as [_ Habs].
    + apply Forall_calls_snoc; [exact Hcalls|]. now split.
    + right. split; [reflexivity|]. now right.
  - (* ChatSettles *)
    destruct (chats_in_flight s) as [|n] eqn:Hn; [discriminate|].
    injection Hstep as <-.
    assert (Hone : n = 0%nat).
    { destruct (chatLoading s); [destruct Hchat as [Hc _]|]; congruence. }
    subst n.
    unfold page_invariant. settle_cases o;
      (split; [exact Hprof|]; split; [reflexivity|]; split;
       [exact Hcalls|now left]).
  - (* SaveProfile *)
    destruct (can_save form s); [|discriminate]. injection Hstep as <-.
    unfold page_invariant; cbn.
    split; [split; [discriminate|reflexivity]|]. now repeat split.
  - (* SampleToggle *)
    injection Hstep as <-.
    unfold page_invariant, handleSampleToggle.
    destruct checked, (hasProfile s) eqn:Hp; cbn; rewrite ?Hp;
      (split; [|now repeat split]);
      try exact Hprof; split; try discriminate; reflexivity.
  - (* ViewHistoryEntry *)
    destruct (dashboardView s); [|discriminate].
    destruct (nth_error (history s) i) as [entry|]; [|discriminate].
    injection Hstep as <-.
    unfold page_invariant, handleViewHistoryEntry.
    destruct (entry_profile entry); cbn;
      (split; [|now repeat split]);
      try exact Hprof; split; try discriminate; reflexivity.
  - (* SetActiveTab *)
    assert (s' = setActiveTab tab s) as ->.
    { destruct (dashboardView s), (screen s); congruence. }
    exact Hinv.
  - (* SetChatOpen *)
    injection Hstep as <-. exact Hinv.
Qed.

Lemma reachable_page_invariant s : reachable s -> page_invariant s.
Proof.
  induction 1 as [store session | s s' ev _ IH Hstep].
  - apply page_invariant_startup.
  - exact (page_invariant_step _ _ _ IH Hstep).
Qed.

Lemma step_sessionId ev s s' :
  step ev s = Some s' -> sessionId s' = sessionId s.
Proof.
  intros Hstep. destruct ev; cbn in Hstep.
  - destruct (can_analyze s); [|discriminate]. injection Hstep as <-.
    unfold handleAnalyze. now destruct (profile s).
  - destruct (nth_error (analyses_in_flight s) i); [|discriminate].
    injection Hstep as <-. settle_cases o; reflexivity.
  - destruct (can_chat text s); [|discriminate]. now injection Hstep as <-.
  - destruct (chats_in_flight s); [discriminate|].
    injection Hstep as <-. settle_cases o; reflexivity.
  - destruct (can_save form s); [|discriminate]. now injection Hstep as <-.
  - injection Hstep as <-. unfold handleSampleToggle.
    now destruct checked, (hasProfile s).
  - destruct (dashboardView s); [|discriminate].
    destruct (nth_error (history s) i) as [entry|]; [|discriminate].
    injection Hstep as <-. unfold handleViewHistoryEntry.
    now destruct (entry_profile entry).
  - destruct (dashboardView s), (screen s); try discriminate;
      now injection Hstep as <-.
  - now injection Hstep as <-.
Qed.

Lemma run_reachable evs : forall s s',
  reachable s -> run evs s = Some s' -> reachable s'.
Proof.
  induction evs as [|ev evs IH]; intros s s' Hreach Hrun; cbn in Hrun.
  - now injection Hrun as <-.
  - destruct (step ev s) as [s1|] eqn:Hstep; [|discriminate].
    exact (IH _ _ (reachable_step _ _ _ Hreach Hstep) Hrun).
Qed.

Lemma run_sessionId evs : forall s s',
  run evs s = Some s' -> sessionId s' = sessionId s.
Proof.
  induction evs as [|ev evs IH]; intros s s' Hrun; cbn in Hrun.
  - now injection Hrun as <-.
  - destruct (step ev s) as [s1|] eqn:Hstep; [|discriminate].
    rewrite (IH _ _ Hrun). exact (step_sessionId _ _ _ Hstep).
Qed.

Lemma sessionId_startup store session :
  sessionId (startup session (initial store)) = session.
Proof.
  unfold startup. cbn [initial localStorage].
  destruct (finance_history store) as [[| |h]|];
    destruct (finance_profile store) as [[| |p]|];
    cbn; try destruct (number_truthy (salary p)); reflexivity.
Qed.

(** X2.  The identifier made at mount is passed, unchanged, with every call to
    the gateway, and every call goes to the coordinator agent. *)
Theorem every_call_carries_session
    (store : Storage) (session : string) (evs : list Event) (s : State) :
  run evs (startup session (initial store)) = Some s ->
  sessionId s = session
  /\ forall c, In c (calls s) ->
               agentId c = MANAGER_AGENT_ID /\ session_id c = session.
Proof.
  intros Hrun.
  assert (Hid : sessionId s = session).
  { rewrite (run_sessionId _ _ _ Hrun). apply sessionId_startup. }
  split; [exact Hid|]. intros c Hin.
  pose proof (reachable_page_invariant s
                (run_reachable _ _ _ (reachable_startup store session) Hrun))
    as (_ & _ & Hcalls & _).
  rewrite Forall_forall in Hcalls. rewrite <- Hid. now apply Hcalls.
Qed.

(** X3.  In every reachable state at most one chat request is in flight, and
    [chatLoading] is set exactly while one is.  While it is set the page
    lets no chat message through. *)
Theorem one_chat_in_flight (s : State) :
  reachable s ->
  (chats_in_flight s <= 1)%nat
  /\ (chats_in_flight s = 1%nat <-> chatLoading s = true)
  /\ (chatLoading s = true ->
      forall time text, step (ChatSend time text) s = None).
Proof.
  intros Hreach.
  pose proof (reachable_page_invariant s Hreach) as (_ & Hchat & _ & _).
  destruct (chatLoading s) eqn:Hl.
  - destruct Hchat as [Hone Hne]. rewrite Hone.
    split; [lia|]. split; [tauto|]. intros _ time text.
    cbn. unfold can_chat. rewrite Hl.
    destruct (chatMessages s); [congruence|].
    cbn. now rewrite andb_false_r.
  - rewrite Hchat. split; [lia|]. split; [|discriminate].
    split; discriminate.
Qed.

(** X4.  In every reachable state only the coordinator's dot can pulse in the
    agent panel, and it pulses only while an analysis or a chat reply is
    awaited; the other two agents are never shown active. *)
Theorem only_coordinator_is_shown_active (s : State) :
  reachable s ->
  exists busy,
    AgentStatusPanel (activeAgentId s)
    = [ ("Finance Coordinator", busy);
        ("Email Transaction Agent", false);
        ("Financial Analyst", false) ]
    /\ (busy = true -> loading s = true \/ chatLoading s = true).
Proof.
  intros Hreach.
  pose proof (reachable_page_invariant s Hreach) as (_ & _ & _ & Hagent).
  destruct Hagent as [Hnone | [Hsome Hbusy]].
  - exists false. rewrite Hnone. split; [reflexivity|discriminate].
  - exists true. rewrite Hsome. split; [reflexivity|]. intros _. exact Hbusy.
Qed.

Lemma dashboard_is_main s :
  in_flight_invariant s -> page_invariant s ->
  dashboardView s <> None ->
  screen s = MainScreen /\ exists p, profile s = Some p.
Proof.
  intros (Hsample & _ & _) (Hprof & _ & _ & _) Hdash.
  unfold dashboardView, screen in *.
  destruct (hasProfile s) eqn:Hp; cbn in *.
  - destruct (Tab_eqb (activeTab s) TabProfile); [congruence|].
    split; [reflexivity|].
    destruct (profile s) as [p|]; [now exists p|].
    destruct Hprof as [Hprof _]. now destruct (Hprof eq_refl).
  - destruct (Tab_eqb (activeTab s) TabProfile); cbn in Hdash; [congruence|].
    destruct (sampleMode s); [|congruence].
    specialize (Hsample eq_refl). congruence.
Qed.

(** X5.  In every reachable state the dashboard is rendered only by the main
    screen and only with an active profile; the sample-only dashboard of
    the setup screen is never reached. *)
Theorem dashboard_has_profile (s : State) (props : DashboardProps) :
  reachable s ->
  dashboardView s = Some props ->
  screen s = MainScreen
  /\ (exists p, profile s = Some p)
  /\ props = {| props_report := report s; props_loading := loading s;
                props_error := error s |}.
Proof.
  intros Hreach Hdash.
  destruct (dashboard_is_main s (reachable_invariant s Hreach)
              (reachable_page_invariant s Hreach)) as [Hmain Hp];
    [congruence|].
  split; [exact Hmain|]. split; [exact Hp|].
  unfold dashboardView in Hdash. rewrite Hmain in Hdash. congruence.
Qed.

(** X6.  In every reachable state where an analyze button is offered, the click
    sends exactly one analysis request, built from the active profile, and
    leaves the page loading with no error and the report as it was. *)
Theorem analyze_click_sends_active_profile (s s' : State) :
  reachable s ->
  step ClickAnalyze s = Some s' ->
  exists p,
    profile s = Some p
    /\ calls s' = (calls s ++ [ {| message := analyze_message p;
                                   agentId := MANAGER_AGENT_ID;
                                   session_id := sessionId s |} ])%list
    /\ analyses_in_flight s' = [p]
    /\ loading s' = true
    /\ error s' = None
    /\ report s' = report s.
Proof.
  intros Hreach Hstep. cbn in Hstep.
  destruct (can_analyze s) eqn:Hcan; [|discriminate].
  injection Hstep as <-.
  pose proof (reachable_invariant s Hreach) as Hinv.
  pose proof (can_analyze_idle s Hinv Hcan) as Hidle.
  destruct Hinv as (_ & _ & Hfl). rewrite Hidle in Hfl.
  destruct (dashboard_is_main s (reachable_invariant s Hreach)
              (reachable_page_invariant s Hreach)) as [_ [p Hp]].
  { unfold can_analyze in Hcan. now destruct (dashboardView s). }
  exists p. unfold handleAnalyze. rewrite Hp. cbn. rewrite Hfl.
  repeat split; reflexivity.
Qed.

(** ** More on the handlers *)

(** X7.  An analysis that fails (the call rejects, or its result does not
    parse) leaves the report, the history, the profile and the storage as
    they were; it ends the loading state and sets the error to the message
    of the rejection, or to one of the two fixed texts. *)
Theorem failed_analysis_keeps_report
    (clock : Clock) (p : FinancialProfile) (o : Outcome) (s : State) :
  match o with
  | Resolved result => parseAgentResponse result = None
  | Rejected _ => True
  end ->
  let s' := handleAnalyze_settled clock p o s in
  report s' = report s
  /\ history s' = history s
  /\ profile s' = profile s
  /\ localStorage s' = localStorage s
  /\ loading s' = false
  /\ activeAgentId s' = None
  /\ error s'
     = Some match o with
            | Resolved _ =>
                "Could not parse the financial analysis. Please try again."
            | Rejected (Some msg) => msg
            | Rejected None => "An error occurred during analysis."
            end.
Proof.
  intros Hfail. unfold handleAnalyze_settled.
  destruct o as [result|[msg|]]; [rewrite Hfail| |]; cbn;
    repeat split; reflexivity.
Qed.

Lemma step_history_cases ev s s' :
  step ev s = Some s' ->
  history s' = history s
  \/ exists i clock result r p,
       ev = AnalysisSettles i clock (Resolved result)
       /\ parseAgentResponse result = Some r
       /\ nth_error (analyses_in_flight s) i = Some p
       /\ history s' = firstn 20 (new_entry clock r p :: history s).
Proof.
  intros Hstep. destruct ev; cbn in Hstep.
  - destruct (can_analyze s); [|discriminate]. injection Hstep as <-.
    left. unfold handleAnalyze. now destruct (profile s).
  - destruct (nth_error (analyses_in_flight s) i) as [p|] eqn:Hp;
      [|discriminate].
    injection Hstep as <-. unfold handleAnalyze_settled.
    destruct o as [result|reason]; [|now left].
    destruct (parseAgentResponse result) as [r|] eqn:Hr; [|now left].
    right. exists i, clock, result, r, p. now repeat split.
  - destruct (can_chat text s); [|discriminate]. injection Hstep as <-.
    now left.
  - destruct (chats_in_flight s); [discriminate|]. injection Hstep as <-.
    left. settle_cases o; reflexivity.
  - destruct (can_save form s); [|discriminate]. injection Hstep as <-.
    now left.
  - injection Hstep as <-. left. unfold handleSampleToggle.
    now destruct checked, (hasProfile s).
  - destruct (dashboardView s); [|discriminate].
    destruct (nth_error (history s) i) as [entry|]; [|discriminate].
    injection Hstep as <-. left. unfold handleViewHistoryEntry.
    now destruct (entry_profile entry).
  - left. destruct (dashboardView s), (screen s); try discriminate;
      now injection Hstep as <-.
  - injection Hstep as <-. now left.
Qed.

(** X8.  The history changes only when an analysis settles with a result that
    parses: every other event (a click, a chat send or reply, a failed
    analysis, saving the profile, the sample switch, selecting an entry,
    changing tab) leaves it as it was, and a successful analysis puts its
    entry first and keeps the first 20. *)
Theorem history_changes_only_on_success (ev : Event) (s s' : State) :
  step ev s = Some s' ->
  history s' <> history s ->
  exists i clock result r p,
    ev = AnalysisSettles i clock (Resolved result)
    /\ parseAgentResponse result = Some r
    /\ nth_error (analyses_in_flight s) i = Some p
    /\ history s' = firstn 20 (new_entry clock r p :: history s).
Proof.
  intros Hstep Hne.
  destruct (step_history_cases _ _ _ Hstep) as [Hsame | Hnew];
    [contradiction|exact Hnew].
Qed.

Lemma history_startup store session :
  history (startup session (initial store))
  = match finance_history store with
    | Some (Doc h) => h
    | _ => []
    end.
Proof.
  unfold startup. cbn [initial localStorage].
  destruct (finance_history store) as [[| |h]|];
    destruct (finance_profile store) as [[| |p]|];
    cbn; try destruct (number_truthy (salary p)); reflexivity.
Qed.

(** X9.  When the stored history has at most 20 entries (or there is none), the
    history has at most 20 entries after the mount and after any events. *)
Theorem history_capped_along_runs
    (store : Storage) (session : string) (evs : list Event) (s : State) :
  match finance_history store with
  | Some (Doc h) => (length h <= 20)%nat
  | _ => True
  end ->
  run evs (startup session (initial store)) = Some s ->
  (length (history s) <= 20)%nat.
Proof.
  intros Hstored.
  assert (Hstart : (length (history (startup session (initial store))) <= 20)%nat).
  { rewrite history_startup.
    destruct (finance_history store) as [[| |h]|]; cbn in *; lia. }
  clear Hstored. revert Hstart.
  generalize (startup session (initial store)) as s0. revert s.
  induction evs as [|ev evs IH]; intros s s0 Hcap Hrun; cbn in Hrun.
  - now injection Hrun as <-.
  - destruct (step ev s0) as [s1|] eqn:Hstep; [|discriminate].
    apply (IH s s1); [|exact Hrun].
    destruct (step_history_cases _ _ _ Hstep)
      as [-> | (i & clock & result & r & p & _ & _ & _ & ->)];
      [exact Hcap|apply firstn_le_length].
Qed.

(** X10.  The gateway is contacted only by a click on an analyze button or by a
    chat send, once each time; no other event adds a call, and no event
    removes or alters an earlier one. *)
Theorem gateway_called_only_on_click_or_send (ev : Event) (s s' : State) :
  step ev s = Some s' ->
  calls s' = calls s
  \/ (exists c, calls s' = (calls s ++ [c])%list
                /\ (ev = ClickAnalyze \/ exists time text, ev = ChatSend time text)).
Proof.
  intros Hstep. destruct ev; cbn in Hstep.
  - destruct (can_analyze s); [|discriminate]. injection Hstep as <-.
    unfold handleAnalyze. destruct (profile s) as [p|]; [|now left].
    right. eexists. split; [reflexivity|now left].
  - destruct (nth_error (analyses_in_flight s) i); [|discriminate].
    injection Hstep as <-. left. settle_cases o; reflexivity.
  - destruct (can_chat text s); [|discriminate]. injection Hstep as <-.
    right. eexists. split; [reflexivity|]. right. now exists time, text.
  - destruct (chats_in_flight s); [discriminate|]. injection Hstep as <-.
    left. settle_cases o; reflexivity.
  - destruct (can_save form s); [|discriminate]. injection Hstep as <-.
    now left.
  - injection Hstep as <-. left. unfold handleSampleToggle.
    now destruct checked, (hasProfile s).
  - destruct (dashboardView s); [|discriminate].
    destruct (nth_error (history s) i) as [entry|]; [|discriminate].
    injection Hstep as <-. left. unfold handleViewHistoryEntry.
    now destruct (entry_profile entry).
  - left. destruct (dashboardView s), (screen s); try discriminate;
      now injection Hstep as <-.
  - injection Hstep as <-. now left.
Qed.

(** X11.  After a successful analysis the newest history entry holds the new
    report and the profile the analysis was started with; selecting it
    brings back that report and that profile. *)
Theorem newest_entry_reproduces_analysis
    (clock : Clock) (p : FinancialProfile) (result : value)
    (r : FinancialReport) (s s2 : State) :
  parseAgentResponse result = Some r ->
  step (ViewHistoryEntry 0)
       (handleAnalyze_settled clock p (Resolved result) s) = Some s2 ->
  nth_error (history (handleAnalyze_settled clock p (Resolved result) s)) 0
  = Some (new_entry clock r p)
  /\ report s2 = Some r
  /\ profile s2 = Some p
  /\ hasProfile s2 = true
  /\ activeTab s2 = TabDashboard.
Proof.
  intros Hparse Hstep.
  assert (Hhead : nth_error
                    (history (handleAnalyze_settled clock p (Resolved result) s))
                    0 = Some (new_entry clock r p)).
  { unfold handleAnalyze_settled. rewrite Hparse. reflexivity. }
  split; [exact Hhead|].
  cbn [step] in Hstep. rewrite Hhead in Hstep.
  destruct (dashboardView _); [|discriminate].
  injection Hstep as <-. cbn. repeat split; reflexivity.
Qed.

Lemma storage_step ev s s' :
  step ev s = Some s' ->
  writable (localStorage s') = writable (localStorage s)
  /\ (writable (localStorage s) = false -> localStorage s' = localStorage s)
  /\ (storage_mirrors_history s -> storage_mirrors_history s').
Proof.
  intros Hstep. unfold storage_mirrors_history. destruct ev; cbn in Hstep.
  - destruct (can_analyze s); [|discriminate]. injection Hstep as <-.
    unfold handleAnalyze. now destruct (profile s).
  - destruct (nth_error (analyses_in_flight s) i); [|discriminate].
    injection Hstep as <-. unfold handleAnalyze_settled.
    destruct o as [result|reason]; [|now cbn].
    destruct (parseAgentResponse result) as [r|]; [|now cbn].
    cbn -[firstn]. unfold store_history.
    destruct (writable (localStorage s)) eqn:Hw; cbn -[firstn]; rewrite ?Hw.
    + split; [reflexivity|]. split; [discriminate|].
      intros _ _ h [= <-]. reflexivity.
    + split; [reflexivity|]. split; [reflexivity|]. discriminate.
  - destruct (can_chat text s); [|discriminate]. now injection Hstep as <-.
  - destruct (chats_in_flight s); [discriminate|]. injection Hstep as <-.
    settle_cases o; auto.
  - destruct (can_save form s); [|discriminate]. injection Hstep as <-.
    cbn. unfold store_profile.
    destruct (writable (localStorage s)) eqn:Hw; cbn; rewrite ?Hw;
      repeat split; auto; discriminate.
  - injection Hstep as <-. unfold handleSampleToggle.
    now destruct checked, (hasProfile s).
  - destruct (dashboardView s); [|discriminate].
    destruct (nth_error (history s) i) as [entry|]; [|discriminate].
    injection Hstep as <-. unfold handleViewHistoryEntry.
    now destruct (entry_profile entry).
  - destruct (dashboardView s), (screen s); try discriminate;
      now injection Hstep as <-.
  - now injection Hstep as <-.
Qed.

Lemma storage_run evs : forall s s',
  run evs s = Some s' ->
  writable (localStorage s') = writable (localStorage s)
  /\ (writable (localStorage s) = false -> localStorage s' = localStorage s)
  /\ (storage_mirrors_history s -> storage_mirrors_history s').
Proof.
  induction evs as [|ev evs IH]; intros s s' Hrun; cbn in Hrun.
  - injection Hrun as <-. auto.
  - destruct (step ev s) as [s1|] eqn:Hstep; [|discriminate].
    destruct (storage_step _ _ _ Hstep) as (Hw1 & Hf1 & Hm1).
    destruct (IH _ _ Hrun) as (Hw2 & Hf2 & Hm2).
    split; [congruence|]. split; [|auto].
    intros Hw. rewrite Hf2, Hf1; congruence.
Qed.

Lemma storage_startup store session :
  localStorage (startup session (initial store)) = store
  /\ storage_mirrors_history (startup session (initial store)).
Proof.
  unfold storage_mirrors_history. rewrite history_startup.
  unfold startup. cbn [initial localStorage].
  destruct (finance_history store) as [[| |h]|] eqn:Hh;
    destruct (finance_profile store) as [[| |p]|];
    cbn; try destruct (number_truthy (salary p)); cbn;
    split; try reflexivity; rewrite ?Hh; congruence.
Qed.

(** X12.  After the mount and any events, over a storage that accepts
    writes, a history held in storage is the history the page shows,
    provided JSON keeps the entries shown (their numbers are finite and
    they hold no [undefined]): the mount takes the history from storage and
    a successful analysis writes what it keeps.  Over a storage where
    [setItem] throws, the storage stays as it was found, whatever happens on
    the page. *)
Theorem storage_holds_live_history
    (store : Storage) (session : string) (evs : list Event) (s : State) :
  run evs (startup session (initial store)) = Some s ->
  (writable store = true ->
   forallb entry_json_safe (history s) = true ->
   forall h, finance_history (localStorage s) = Some (Doc h) -> history s = h)
  /\ (writable store = false -> localStorage s = store).
Proof.
  intros Hrun.
  destruct (storage_startup store session) as [Hstore Hmirror].
  destruct (storage_run _ _ _ Hrun) as (Hw & Hfixed & Hkeep).
  rewrite Hstore in Hw, Hfixed. split.
  - intros Hwritable _. apply (Hkeep Hmirror). congruence.
  - exact Hfixed.
Qed.

Lemma or_else_truthy a b : truthy b = true -> truthy (or_else a b) = true.
Proof. intros Hb. unfold or_else. now destruct (truthy a) eqn:Ha. Qed.

(** X13.  When a chat call settles, the page appends exactly one message to the
    chat log, from the agent, and its content is never empty: the text of
    the reply, or the fixed apology when the call rejected or the reply
    carried no text.  Earlier messages are kept in order. *)
Theorem chat_reply_appends_one_message (time : Z) (o : Outcome) (s : State) :
  let s' := handleChatSend_settled time o s in
  exists m,
    chatMessages s' = (chatMessages s ++ [m])%list
    /\ role m = agent
    /\ timestamp m = time
    /\ truthy (content m) = true
    /\ chatLoading s' = false
    /\ match o with
       | Rejected _ =>
           content m = JStr "Sorry, an error occurred. Please try again."
       | Resolved result =>
           content m = responseText (parseAgentResponse result) result
       end.
Proof.
  unfold handleChatSend_settled.
  destruct o as [result|reason].
  - exists {| role := agent;
              content := responseText (parseAgentResponse result) result;
              timestamp := time |}.
    assert (Ht : truthy (responseText (parseAgentResponse result) result) = true)
      by (unfold responseText; now apply or_else_truthy).
    destruct (parseAgentResponse result) as [r|];
      [destruct (truthy (income_summary r))|]; cbn; repeat split;
      try reflexivity; exact Ht.
  - eexists. cbn. repeat split; reflexivity.
Qed.

(** ** More on the mount effect *)

(** X14.  When the stored history is a non-empty text that does not
    parse, the mount restores nothing: [JSON.parse] throws inside the one
    [try] that holds both reads, so the history is empty and a stored
    profile, however valid, is not read, and the page shows the setup
    screen.  (An empty item is not parsed and counts as no item.) *)
Theorem corrupt_history_blocks_profile (store : Storage) (session : string) :
  finance_history store = Some Unparseable ->
  let s := startup session (initial store) in
  history s = []
  /\ profile s = None
  /\ hasProfile s = false
  /\ screen s = SetupScreen
  /\ localStorage s = store.
Proof.
  intros Hbad. unfold startup. cbn [initial localStorage]. rewrite Hbad.
  cbn. repeat split; reflexivity.
Qed.

(** X15.  When the stored history parses or is absent, a stored profile is
    restored exactly when its salary is truthy: a stored salary of 0 leaves
    the page on the setup screen, and the stored history is restored either
    way. *)
Theorem profile_restored_iff_salary_truthy
    (store : Storage) (session : string) (p : FinancialProfile) :
  finance_history store <> Some Unparseable ->
  finance_profile store = Some (Doc p) ->
  let s := startup session (initial store) in
  profile s = (if number_truthy (salary p) then Some p else None)
  /\ hasProfile s = number_truthy (salary p)
  /\ screen s = (if number_truthy (salary p) then MainScreen else SetupScreen)
  /\ history s = match finance_history store with
                 | Some (Doc h) => h
                 | _ => []
                 end.
Proof.
  intros Hgood Hp. unfold startup. cbn [initial localStorage]. rewrite Hp.
  destruct (finance_history store) as [[| |h]|]; try congruence;
    destruct (number_truthy (salary p)); cbn; repeat split; reflexivity.
Qed.

(** X16.  A profile saved from the form with a salary above 0 is the profile the
    next mount restores, when [setItem] goes through and the stored history
    parses; when [setItem] throws, the profile is active on the page and the
    storage keeps what it had. *)
Theorem saved_profile_survives_reload
    (p : FinancialProfile) (s : State) (session : string) :
  number_gt0 (salary p) = true ->
  profile_numbers_finite p = true ->
  finance_history (localStorage s) <> Some Unparseable ->
  let s1 := handleSaveProfile p s in
  profile s1 = Some p
  /\ (writable (localStorage s) = true ->
      profile (startup session (initial (localStorage s1))) = Some p
      /\ hasProfile (startup session (initial (localStorage s1))) = true)
  /\ (writable (localStorage s) = false -> localStorage s1 = localStorage s).
Proof.
  intros Hpos _ Hgood.
  assert (Htruthy : number_truthy (salary p) = true).
  { destruct (salary p) as [|neg|q]; cbn in *; try congruence.
    destruct (Qnum q); cbn in *; congruence. }
  split; [reflexivity|]. unfold handleSaveProfile, store_profile; cbn.
  destruct (writable (localStorage s)); split; try discriminate;
    try reflexivity.
  intros _. unfold startup. cbn.
  destruct (finance_history (localStorage s)) as [[| |h]|]; try congruence;
    rewrite Htruthy; cbn; split; reflexivity.
Qed.

(** ** The profile form *)

Lemma parseFloat_or_zero_not_NaN val : is_NaN (parseFloat_or_zero val) = false.
Proof.
  unfold parseFloat_or_zero.
  destruct (parseFloat val) as [|neg|q] eqn:Hp; cbn; [reflexivity|reflexivity|].
  now destruct (negb (Qnum q =? 0)%Z).
Qed.

Lemma le0_not_NaN n : is_NaN n = false -> number_le0 n = negb (number_gt0 n).
Proof.
  destruct n as [|neg|q]; cbn; [discriminate| |]; intros _.
  - now destruct neg.
  - destruct (Z.leb_spec (Qnum q) 0), (Z.ltb_spec 0 (Qnum q)); cbn; lia.
Qed.

Lemma forallb_map_index {A : Type} (P : A -> bool) (f : A -> nat -> A) l :
  (forall x i, P x = true -> P (f x i) = true) ->
  forall i, forallb P l = true -> forallb P (map_index f i l) = true.
Proof.
  intros Hf. induction l as [|x l IH]; intros i; cbn; [reflexivity|].
  intros H. apply andb_prop in H as [Hx Hl].
  now rewrite (Hf _ _ Hx), IH.
Qed.

Lemma forallb_filter_index {A : Type} (P : A -> bool) (keep : A -> nat -> bool) l :
  forall i, forallb P l = true -> forallb P (filter_index keep i l) = true.
Proof.
  induction l as [|x l IH]; intros i; cbn; [reflexivity|].
  intros H. apply andb_prop in H as [Hx Hl].
  destruct (keep x i); cbn; [rewrite Hx|]; now apply IH.
Qed.

Lemma edit_keeps_no_NaN e form :
  form_has_no_NaN form = true -> form_has_no_NaN (edit e form) = true.
Proof.
  unfold form_has_no_NaN. intros H.
  repeat (apply andb_prop in H as [H ?]).
  destruct e as [val| |idx|idx field val| |idx|idx field val|field val]; cbn;
    repeat (apply andb_true_intro; split); auto;
    try (rewrite parseFloat_or_zero_not_NaN; reflexivity).
  - rewrite forallb_app. cbn. now rewrite andb_true_r.
  - now apply forallb_filter_index.
  - apply forallb_map_index; [|assumption].
    intros c i Hc. destruct (i =? idx)%nat; [|exact Hc].
    destruct field; cbn; [exact Hc|].
    now rewrite parseFloat_or_zero_not_NaN.
  - rewrite forallb_app. cbn. now rewrite andb_true_r.
  - now apply forallb_filter_index.
  - apply forallb_map_index; [|assumption].
    intros c i Hc. destruct (i =? idx)%nat; [|exact Hc].
    destruct field; cbn; [exact Hc|].
    now rewrite parseFloat_or_zero_not_NaN.
  - destruct field; cbn; auto; now rewrite parseFloat_or_zero_not_NaN.
  - destruct field; cbn; auto; now rewrite parseFloat_or_zero_not_NaN.
  - destruct field; cbn; auto; now rewrite parseFloat_or_zero_not_NaN.
Qed.

(** X17.  Starting from a form without [NaN] (the empty form, or a profile read
    from JSON), no edit of the form brings a [NaN] in: every number typed
    goes through [parseFloat(val) || 0].  So after any edits the save
    button is disabled exactly when the salary is not above 0. *)
Theorem form_edits_never_hold_NaN
    (edits : list FormEdit) (form : FinancialProfile) :
  form_has_no_NaN form = true ->
  let form' := fold_left (fun f e => edit e f) edits form in
  form_has_no_NaN form' = true
  /\ save_disabled form' = negb (number_gt0 (salary form')).
Proof.
  intros Hform.
  assert (Hno : form_has_no_NaN
                  (fold_left (fun f e => edit e f) edits form) = true).
  { revert form Hform. induction edits as [|e edits IH]; intros form Hform;
      cbn; [exact Hform|].
    apply IH. now apply edit_keeps_no_NaN. }
  split; [exact Hno|]. unfold save_disabled. apply le0_not_NaN.
  unfold form_has_no_NaN in Hno.
  repeat (apply andb_prop in Hno as [Hno ?]).
  now apply negb_true_iff in Hno.
Qed.

Lemma filter_index_past {A : Type} (target : nat) (l : list A) : forall i,
  (target < i)%nat ->
  filter_index (fun _ j => negb (j =? target)%nat) i l = l.
Proof.
  induction l as [|x l IH]; intros i Hlt; cbn; [reflexivity|].
  destruct (Nat.eqb_spec i target) as [E|_]; [lia|]. cbn.
  now rewrite IH by lia.
Qed.

Lemma filter_index_drop {A : Type} (l : list A) : forall i idx,
  filter_index (fun _ j => negb (j =? i + idx)%nat) i l
  = (firstn idx l ++ skipn (S idx) l)%list.
Proof.
  induction l as [|x l IH]; intros i idx; cbn.
  - now destruct idx.
  - destruct idx as [|idx].
    + rewrite Nat.add_0_r, Nat.eqb_refl. cbn.
      apply filter_index_past. lia.
    + destruct (Nat.eqb_spec i (i + S idx)) as [E|_]; [lia|]. cbn. f_equal.
      replace (i + S idx)%nat with (S i + idx)%nat by lia. apply IH.
Qed.

Lemma filter_index_drop0 {A : Type} (l : list A) idx :
  filter_index (fun _ j => negb (j =? idx)%nat) 0 l
  = (firstn idx l ++ skipn (S idx) l)%list.
Proof. exact (filter_index_drop l 0 idx). Qed.

Lemma drop_last {A : Type} (l : list A) (x : A) :
  (firstn (length l) (l ++ [x]) ++ skipn (S (length l)) (l ++ [x]))%list = l.
Proof.
  rewrite skipn_all2 by (rewrite length_app; cbn; lia).
  rewrite firstn_app, Nat.sub_diag, firstn_all. cbn.
  now rewrite !app_nil_r.
Qed.

Lemma drop_out_of_range {A : Type} (l : list A) idx :
  (length l <= idx)%nat -> (firstn idx l ++ skipn (S idx) l)%list = l.
Proof.
  intros Hle. rewrite firstn_all2 by lia. rewrite skipn_all2 by lia.
  apply app_nil_r.
Qed.

Lemma drop_length {A : Type} (l : list A) idx :
  (idx < length l)%nat ->
  S (length (firstn idx l ++ skipn (S idx) l)) = length l.
Proof.
  intros Hlt. rewrite length_app, length_firstn, length_skipn. lia.
Qed.

(** X18.  Removing a card or an EMI drops the row at that position and keeps
    the others in order; a position past the end removes nothing; removing
    the row that Add has just appended gives back the form as it was. *)
Theorem remove_drops_one_row (idx : nat) (form : FinancialProfile) :
  cards (removeCard idx form)
  = (firstn idx (cards form) ++ skipn (S idx) (cards form))%list
  /\ emis (removeEMI idx form)
     = (firstn idx (emis form) ++ skipn (S idx) (emis form))%list
  /\ ((length (cards form) <= idx)%nat -> removeCard idx form = form)
  /\ ((length (emis form) <= idx)%nat -> removeEMI idx form = form)
  /\ ((idx < length (cards form))%nat ->
      S (length (cards (removeCard idx form))) = length (cards form))
  /\ ((idx < length (emis form))%nat ->
      S (length (emis (removeEMI idx form))) = length (emis form))
  /\ removeCard (length (cards form)) (addCard form) = form
  /\ removeEMI (length (emis form)) (addEMI form) = form.
Proof.
  assert (Hc : forall f, cards (removeCard idx f)
               = (firstn idx (cards f) ++ skipn (S idx) (cards f))%list)
    by (intros f; apply filter_index_drop0).
  assert (He : forall f, emis (removeEMI idx f)
               = (firstn idx (emis f) ++ skipn (S idx) (emis f))%list)
    by (intros f; apply filter_index_drop0).
  split; [apply Hc|]. split; [apply He|]. repeat split.
  - intros Hle. destruct form as [sal cs es fx]. unfold removeCard, with_cards.
    cbn in *. f_equal.
    rewrite filter_index_drop0. now apply drop_out_of_range.
  - intros Hle. destruct form as [sal cs es fx]. unfold removeEMI, with_emis.
    cbn in *. f_equal.
    rewrite filter_index_drop0. now apply drop_out_of_range.
  - intros Hlt. rewrite Hc. now apply drop_length.
  - intros Hlt. rewrite He. now apply drop_length.
  - destruct form as [sal cs es fx]. unfold removeCard, addCard, with_cards.
    cbn. f_equal.
    rewrite filter_index_drop0. apply drop_last.
  - destruct form as [sal cs es fx]. unfold removeEMI, addEMI, with_emis.
    cbn. f_equal.
    rewrite filter_index_drop0. apply drop_last.
Qed.

Lemma nth_error_map_index {A B : Type} (f : A -> nat -> B) (l : list A) :
  forall i n,
    nth_error (map_index f i l) n
    = option_map (fun x => f x (i + n)%nat) (nth_error l n).
Proof.
  induction l as [|x l IH]; intros i n; cbn.
  - now destruct n.
  - destruct n as [|n]; cbn; [now rewrite Nat.add_0_r|].
    rewrite IH. now replace (S i + n)%nat with (i + S n)%nat by lia.
Qed.

Lemma length_map_index {A B : Type} (f : A -> nat -> B) (l : list A) :
  forall i, length (map_index f i l) = length l.
Proof. induction l as [|x l IH]; intros i; cbn; [reflexivity|]. now rewrite IH. Qed.

(** X19.  Editing a card changes the row at that position and no other: its
    name becomes the text typed, or its limit the number read from it (0
    when [parseFloat] gives [NaN] or 0); the number of rows, the salary, the
    EMIs and the fixed expenses stay, and a position past the end changes
    nothing.  The same holds of an EMI and its amount. *)
Theorem update_changes_one_row
    (idx n : nat) (val : string) (form : FinancialProfile) :
  (forall field,
     nth_error (cards (updateCard idx field val form)) n
     = option_map
         (fun c =>
            if (n =? idx)%nat
            then match field with
                 | card_field_name =>
                     {| card_name := val; card_limit := card_limit c |}
                 | card_field_limit =>
                     {| card_name := card_name c;
                        card_limit := parseFloat_or_zero val |}
                 end
            else c)
         (nth_error (cards form) n)
     /\ length (cards (updateCard idx field val form)) = length (cards form)
     /\ salary (updateCard idx field val form) = salary form
     /\ emis (updateCard idx field val form) = emis form
     /\ fixedExpenses (updateCard idx field val form) = fixedExpenses form)
  /\ (forall field,
        nth_error (emis (updateEMI idx field val form)) n
        = option_map
            (fun e =>
               if (n =? idx)%nat
               then match field with
                    | emi_field_name =>
                        {| emi_name := val; emi_amount := emi_amount e |}
                    | emi_field_amount =>
                        {| emi_name := emi_name e;
                           emi_amount := parseFloat_or_zero val |}
                    end
               else e)
            (nth_error (emis form) n)
        /\ length (emis (updateEMI idx field val form)) = length (emis form)
        /\ salary (updateEMI idx field val form) = salary form
        /\ cards (updateEMI idx field val form) = cards form
        /\ fixedExpenses (updateEMI idx field val form) = fixedExpenses form).
Proof.
  split; intros field; unfold updateCard, updateEMI; cbn;
    rewrite nth_error_map_index, length_map_index; cbn;
    repeat split; destruct (nth_error _ n); cbn; try reflexivity;
    destruct (n =? idx)%nat, field; reflexivity.
Qed.

(** ** Colours *)

Lemma number_lt_finite (q : Q) (k : Z) :
  number_lt (Finite q) k = true <-> (q < inject_Z k)%Q.
Proof.
  unfold number_lt, Qlt. cbn. rewrite Z.ltb_lt. now rewrite Z.mul_1_r.
Qed.

(** X20.  The bar and the label of a card's utilization always take the same
    colour: green below 30, yellow from 30 to below 60, red from 60 up, and
    red as well when the value is [NaN]. *)
Theorem utilization_colours_agree (percent : number) :
  (getUtilizationColor percent = "bg-green-500"
   <-> getUtilizationTextColor percent = "text-green-700")
  /\ (getUtilizationColor percent = "bg-yellow-500"
      <-> getUtilizationTextColor percent = "text-yellow-700")
  /\ (getUtilizationColor percent = "bg-red-500"
      <-> getUtilizationTextColor percent = "text-red-700")
  /\ (forall q, percent = Finite q ->
        (getUtilizationColor percent = "bg-green-500" <-> (q < 30)%Q)
        /\ (getUtilizationColor percent = "bg-yellow-500"
            <-> (30 <= q)%Q /\ (q < 60)%Q)
        /\ (getUtilizationColor percent = "bg-red-500" <-> (60 <= q)%Q))
  /\ (percent = NaN -> getUtilizationColor percent = "bg-red-500").
Proof.
  unfold getUtilizationColor, getUtilizationTextColor.
  split; [|split; [|split; [|split]]].
  - destruct (number_lt percent 30), (number_lt percent 60);
      split; intros H; try reflexivity; discriminate.
  - destruct (number_lt percent 30), (number_lt percent 60);
      split; intros H; try reflexivity; discriminate.
  - destruct (number_lt percent 30), (number_lt percent 60);
      split; intros H; try reflexivity; discriminate.
  - intros q ->.
    pose proof (number_lt_finite q 30) as H30.
    pose proof (number_lt_finite q 60) as H60.
    change (inject_Z 30) with 30%Q in H30.
    change (inject_Z 60) with 60%Q in H60.
    assert (H3060 : (30 < 60)%Q) by reflexivity.
    destruct (number_lt (Finite q) 30) eqn:E30,
             (number_lt (Finite q) 60) eqn:E60.
    + assert (q < 30)%Q by now apply H30.
      repeat split; intros; try discriminate; try reflexivity; try assumption;
        exfalso.
      * destruct H0 as [Hge _]. now apply (Qle_not_lt _ _ Hge).
      * apply (Qle_not_lt _ _ H0). now apply Qlt_trans with 30%Q.
    + assert (q < 30)%Q by now apply H30.
      assert (~ (q < 60)%Q) by (intros Hc; apply H60 in Hc; discriminate).
      exfalso. apply H0. now apply Qlt_trans with 30%Q.
    + assert (~ (q < 30)%Q) by (intros Hc; apply H30 in Hc; discriminate).
      assert (q < 60)%Q by now apply H60.
      repeat split; intros; try discriminate; try reflexivity; try assumption;
        try contradiction.
      * now apply Qnot_lt_le.
      * exfalso. now apply (Qle_not_lt _ _ H1).
    + assert (~ (q < 30)%Q) by (intros Hc; apply H30 in Hc; discriminate).
      assert (~ (q < 60)%Q) by (intros Hc; apply H60 in Hc; discriminate).
      repeat split; intros; try discriminate; try reflexivity;
        try contradiction.
      * destruct H1. contradiction.
      * now apply Qnot_lt_le.
  - intros ->. reflexivity.
Qed.

(** X21.  The border and the icon of a risk alert always take the same colour:
    red for [high], yellow for [medium], blue for anything else, the
    severity being compared after [toLowerCase]; a missing severity is read
    as the empty string. *)
Theorem severity_colours_agree (severity : option string) :
  (getSeverityColor severity = "border-red-400 bg-red-50 text-red-800"
   <-> getSeverityIconColor severity = "text-red-500")
  /\ (getSeverityColor severity
      = "border-yellow-400 bg-yellow-50 text-yellow-800"
      <-> getSeverityIconColor severity = "text-yellow-500")
  /\ (getSeverityColor severity = "border-blue-400 bg-blue-50 text-blue-800"
      <-> getSeverityIconColor severity = "text-blue-500")
  /\ getSeverityColor None = getSeverityColor (Some EmptyString)
  /\ getSeverityIconColor None = getSeverityIconColor (Some EmptyString).
Proof.
  unfold getSeverityColor, getSeverityIconColor. cbv zeta.
  set (s := toLowerCase match severity with Some x => x | None => "" end).
  destruct (s =? "high"), (s =? "medium"); repeat split; intros H;
    try reflexivity; discriminate.
Qed.

(** ** Sorting the category table *)

(** X22.  A click on a column header always makes that column the sort key.  On
    another column than the current one it starts descending; on the
    current one it flips the direction, so two clicks on the current column
    bring the table back to where it was. *)
Theorem handleSort_toggles (key : SortKey) (st : SortState) :
  sortKey (handleSort key st) = key
  /\ (sortKey st <> key -> handleSort key st = {| sortKey := key; sortDir := desc |})
  /\ (sortKey st = key -> handleSort key (handleSort key st) = st)
  /\ (sortKey st = key -> sortDir (handleSort key st) <> sortDir st).
Proof.
  destruct st as [k d]. unfold handleSort; cbn.
  destruct k, key, d; cbn; repeat split; intros H;
    try reflexivity; try discriminate; congruence.
Qed.

(** ** The markdown renderer *)

Lemma split_bold_two inside acc c d rest2 :
  split_bold inside acc (c :: d :: rest2)
  = if ((c =? star) && (d =? star))%N && (inside || closes rest2)
    then rev acc :: split_bold (negb inside) [] rest2
    else split_bold inside (c :: acc) (d :: rest2).
Proof. reflexivity. Qed.

Lemma take_bold_two c d rest2 :
  take_bold (c :: d :: rest2)
  = if ((c =? star) && (d =? star))%N then []
    else c :: take_bold (d :: rest2).
Proof. reflexivity. Qed.

Lemma after_bold_two c d rest2 :
  after_bold (c :: d :: rest2)
  = if ((c =? star) && (d =? star))%N then rest2
    else after_bold (d :: rest2).
Proof. reflexivity. Qed.

Lemma closes_two c d rest2 :
  closes (c :: d :: rest2)
  = if ((c =? star) && (d =? star))%N then true
    else if is_line_terminator c then false
    else closes (d :: rest2).
Proof. reflexivity. Qed.

Lemma has_two_stars_two c d rest2 :
  has_two_stars (c :: d :: rest2)
  = ((c =? star) && (d =? star))%N || has_two_stars (d :: rest2).
Proof. reflexivity. Qed.

Lemma stars_eq c d :
  ((c =? star) && (d =? star))%N = true -> c = star /\ d = star.
Proof.
  intros H. apply andb_prop in H as [Hc Hd].
  now apply N.eqb_eq in Hc, Hd.
Qed.

Lemma closes_has_two_stars s : closes s = true -> has_two_stars s = true.
Proof.
  induction s as [|c rest IH]; [discriminate|].
  destruct rest as [|d rest2]; [discriminate|].
  rewrite closes_two, has_two_stars_two.
  destruct ((c =? star) && (d =? star))%N; [reflexivity|].
  destruct (is_line_terminator c); [discriminate|]. exact IH.
Qed.

Lemma split_bold_inside s : forall acc,
  has_two_stars s = true ->
  split_bold true acc s
  = (rev acc ++ take_bold s)%list :: split_bold false [] (after_bold s)
  /\ s = (take_bold s ++ star :: star :: after_bold s)%list.
Proof.
  induction s as [|c rest IH]; intros acc; [discriminate|].
  destruct rest as [|d rest2]; [discriminate|].
  rewrite has_two_stars_two, split_bold_two, take_bold_two, after_bold_two.
  destruct ((c =? star) && (d =? star))%N eqn:Hstars.
  - intros _. cbn. rewrite app_nil_r. split; [reflexivity|].
    destruct (stars_eq _ _ Hstars) as [-> ->]. reflexivity.
  - cbn [orb andb]. intros Hrest.
    destruct (IH (c :: acc) Hrest) as [Hsplit Heq].
    rewrite Hsplit. cbn [rev]. rewrite <- app_assoc. cbn [app].
    split; [reflexivity|]. f_equal. exact Heq.
Qed.

Lemma length_after_bold s : (length (after_bold s) <= length s)%nat.
Proof.
  induction s as [|c rest IH]; [cbn; lia|].
  destruct rest as [|d rest2]; [cbn; lia|].
  rewrite after_bold_two.
  destruct ((c =? star) && (d =? star))%N; cbn [length] in *; lia.
Qed.

Lemma take_bold_text s : closes s = true -> bold_text (take_bold s).
Proof.
  unfold bold_text.
  induction s as [|c rest IH]; [discriminate|].
  destruct rest as [|d rest2]; [discriminate|].
  rewrite closes_two, take_bold_two.
  destruct ((c =? star) && (d =? star))%N eqn:Hstars; [now split|].
  destruct (is_line_terminator c) eqn:Hlt; [discriminate|].
  intros Hcl. destruct (IH Hcl) as [Hno Hline].
  split.
  - destruct rest2 as [|e rest3]; [discriminate|].
    rewrite take_bold_two in *.
    destruct ((d =? star) && (e =? star))%N; [reflexivity|].
    rewrite has_two_stars_two. now rewrite Hstars.
  - cbn [forallb]. now rewrite Hlt, Hline.
Qed.

Lemma split_bold_outside n : forall s acc,
  (length s <= n)%nat ->
  join_bold (split_bold false acc s) = (rev acc ++ s)%list
  /\ Nat.odd (length (split_bold false acc s)) = true
  /\ Forall bold_text (bold_parts (split_bold false acc s)).
Proof.
  induction n as [|n IH]; intros s acc Hlen.
  - destruct s; [|cbn in Hlen; lia]. cbn. rewrite app_nil_r. now repeat split.
  - destruct s as [|c rest]; [cbn; rewrite app_nil_r; now repeat split|].
    destruct rest as [|d rest2]; [cbn; now repeat split|].
    rewrite split_bold_two. cbn [orb].
    destruct ((c =? star) && (d =? star))%N eqn:Hstars; cbn [andb].
    + destruct (closes rest2) eqn:Hcl.
      * destruct (split_bold_inside rest2 []
                    (closes_has_two_stars _ Hcl)) as [Hsplit Heq].
        cbn [negb]. rewrite Hsplit. cbn [rev app].
        destruct (IH (after_bold rest2) []) as (Hjoin & Hodd & Hbold).
        { pose proof (length_after_bold rest2). cbn in Hlen. lia. }
        destruct (stars_eq _ _ Hstars) as [-> ->].
        split; [|split].
        -- cbn [join_bold]. rewrite Hjoin. cbn [rev app].
           now rewrite <- Heq.
        -- cbn [length]. now rewrite Nat.odd_succ_succ.
        -- cbn [bold_parts]. constructor; [|exact Hbold].
           now apply take_bold_text.
      * destruct (IH (d :: rest2) (c :: acc)) as (Hjoin & Hodd & Hbold).
        { cbn in *. lia. }
        split; [|now split]. rewrite Hjoin. cbn [rev].
        now rewrite <- app_assoc.
    + destruct (IH (d :: rest2) (c :: acc)) as (Hjoin & Hodd & Hbold).
      { cbn in *. lia. }
      split; [|now split]. rewrite Hjoin. cbn [rev].
      now rewrite <- app_assoc.
Qed.

(** X23.  Splitting a text at its bold spans loses nothing: the parts, with the
    two stars put back around every second one, are the text.  The number
    of parts is odd, a bold part holds neither two stars in a row nor a
    line terminator, and [formatInline] returns the text as it is exactly
    when the split gives the text as its only part. *)
Theorem split_parts_round_trip (text : jsstring) :
  join_bold (split_parts text) = text
  /\ Nat.odd (length (split_parts text)) = true
  /\ Forall bold_text (bold_parts (split_parts text))
  /\ (formatInline text = InlineText text <-> split_parts text = [text]).
Proof.
  destruct (split_bold_outside (length text) text [] (le_n _))
    as (Hjoin & Hodd & Hbold).
  fold (split_parts text) in Hjoin, Hodd, Hbold. cbn in Hjoin.
  split; [exact Hjoin|]. split; [exact Hodd|]. split; [exact Hbold|].
  unfold formatInline. cbv zeta.
  destruct (split_parts text) as [|p0 [|p1 rest]] eqn:Hparts; cbn.
  - discriminate Hodd.
  - cbn in Hjoin. subst p0. split; reflexivity.
  - split; [discriminate|]. intros H. discriminate H.
Qed.

Lemma split_lines_nonempty text : split_lines text <> [].
Proof.
  destruct text as [|c rest]; cbn; [discriminate|].
  destruct (c =? 10)%N; [discriminate|].
  destruct (split_lines rest); discriminate.
Qed.

Lemma join_lines_cons line next rest :
  join_lines (line :: next :: rest)
  = (line ++ 10%N :: join_lines (next :: rest))%list.
Proof. reflexivity. Qed.

Lemma split_lines_facts text :
  join_lines (split_lines text) = text
  /\ length (split_lines text) = S (count_occ N.eq_dec text 10%N)
  /\ Forall (fun line => ~ In 10%N line) (split_lines text).
Proof.
  induction text as [|c rest (Hjoin & Hlen & Hno)].
  - cbn. repeat split. constructor; [tauto|constructor].
  - pose proof (split_lines_nonempty rest) as Hne.
    cbn [split_lines count_occ].
    destruct (split_lines rest) as [|line lines] eqn:Hl; [congruence|].
    destruct (N.eqb_spec c 10) as [->|Hc].
    + destruct (N.eq_dec 10 10) as [_|E]; [|congruence].
      rewrite join_lines_cons, Hjoin. cbn [length app] in *. rewrite Hlen.
      repeat split. constructor; [cbn; tauto|exact Hno].
    + destruct (N.eq_dec c 10) as [E|_]; [congruence|].
      apply Forall_cons_iff in Hno as [Hline Hlines].
      split; [|split].
      * destruct lines as [|next lines'].
        -- cbn in *. now rewrite Hjoin.
        -- rewrite join_lines_cons in *. cbn [app]. now rewrite Hjoin.
      * exact Hlen.
      * constructor; [|exact Hlines]. cbn. intros [E|E]; [congruence|tauto].
Qed.

(** X24.  [renderMarkdown] returns [null] for the empty text only.  Otherwise it
    makes one block per line: as many blocks as the text has line feeds,
    plus one; the lines it renders hold no line feed and, joined by line
    feeds, are the text. *)
Theorem renderMarkdown_one_block_per_line (text : jsstring) :
  (renderMarkdown text = None <-> text = [])
  /\ (text <> [] ->
      exists blocks,
        renderMarkdown text = Some blocks
        /\ blocks = map render_line (split_lines text)
        /\ length blocks = S (count_occ N.eq_dec text 10%N))
  /\ join_lines (split_lines text) = text
  /\ Forall (fun line => ~ In 10%N line) (split_lines text).
Proof.
  destruct (split_lines_facts text) as (Hjoin & Hlen & Hno).
  split; [|split; [|split; assumption]].
  - destruct text; cbn; split; congruence.
  - intros Hne. exists (map render_line (split_lines text)).
    split; [now destruct text|]. split; [reflexivity|].
    now rewrite length_map.
Qed.

Lemma drop_digits_app digits rest :
  forallb is_digit digits = true ->
  drop_digits (digits ++ 46%N :: rest)%list = 46%N :: rest.
Proof.
  induction digits as [|c ds IH]; cbn; [reflexivity|].
  intros H. apply andb_prop in H as [Hc Hds]. rewrite Hc. now apply IH.
Qed.

Lemma digit_starts_no_marker c rest :
  is_digit c = true ->
  startsWith (units "### ") (c :: rest) = false
  /\ startsWith (units "## ") (c :: rest) = false
  /\ startsWith (units "# ") (c :: rest) = false
  /\ startsWith (units "- ") (c :: rest) = false
  /\ startsWith (units "* ") (c :: rest) = false.
Proof.
  unfold is_digit. intros H. apply andb_prop in H as [Hlo Hhi].
  apply N.leb_le in Hlo, Hhi.
  assert (H35 : (35 =? c)%N = false) by (apply N.eqb_neq; lia).
  assert (H45 : (45 =? c)%N = false) by (apply N.eqb_neq; lia).
  assert (H42 : (42 =? c)%N = false) by (apply N.eqb_neq; lia).
  cbn -[N.eqb]. now rewrite H35, H45, H42.
Qed.

(** X25.  A line that starts with digits, a dot and one white-space character is
    rendered as a numbered item whose body is the rest of the line: the
    number written in the text is dropped, so the same rest gives the same
    item whatever the number and whatever the white space. *)
Theorem numbered_line_drops_number
    (digits : jsstring) (sp : N) (rest : jsstring) :
  digits <> [] ->
  forallb is_digit digits = true ->
  is_space sp = true ->
  render_line (digits ++ 46%N :: sp :: rest)%list
  = LiDecimal (formatInline rest).
Proof.
  intros Hne Hdigits Hsp.
  destruct digits as [|c ds]; [congruence|].
  cbn [forallb] in Hdigits. apply andb_prop in Hdigits as [Hc Hds].
  cbn [app]. unfold render_line.
  destruct (digit_starts_no_marker c (ds ++ 46%N :: sp :: rest)%list Hc)
    as (H1 & H2 & H3 & H4 & H5).
  rewrite H1, H2, H3, H4, H5. cbn [orb].
  unfold after_number. rewrite Hc, (drop_digits_app ds _ Hds).
  now rewrite N.eqb_refl, Hsp.
Qed.

(** ** The sample switch *)

(** X26.  Switching sample mode on shows the sample report; switching it off
    again empties the report cell, whatever report was shown before the
    switch.  A page that had no profile keeps the sample profile as its
    active profile afterwards; a page that had one keeps its own.  The
    history, the storage and the gateway calls are not touched. *)
Theorem sample_on_off_clears_report (s : State) :
  let on := handleSampleToggle true s in
  let off := handleSampleToggle false on in
  report on = Some SAMPLE_REPORT
  /\ report off = None
  /\ sampleMode off = false
  /\ hasProfile off = true
  /\ profile off = (if hasProfile s then profile s else Some SAMPLE_PROFILE)
  /\ history off = history s
  /\ localStorage off = localStorage s
  /\ calls off = calls s.
Proof.
  unfold handleSampleToggle.
  destruct (hasProfile s) eqn:Hp; cbn; rewrite ?Hp; repeat split; reflexivity.
Qed.

(** ** After a conversational reply *)

(** X27.  When an analysis settles with a report whose [report_type] is falsy
    (as the conversational report's empty string is), the page that shows
    this report offers no analyze button: Re-analyze sits under
    [report.report_type], the first-analysis button under [!report], and no
    error is shown. *)
Theorem no_analyze_button_after_untyped_report
    (i : nat) (clock : Clock) (result : value) (r : FinancialReport)
    (s s' : State) :
  reachable s ->
  step (AnalysisSettles i clock (Resolved result)) s = Some s' ->
  parseAgentResponse result = Some r ->
  truthy (report_type r) = false ->
  report s' = Some r /\ error s' = None /\ loading s' = false
  /\ can_analyze s' = false.
Proof.
  intros Hreach Hstep Hparse Htype.
  pose proof (reachable_invariant _ (reachable_step _ _ _ Hreach Hstep))
    as (Hsample & _ & _).
  pose proof (reachable_invariant _ Hreach) as (_ & Herr & Hfl).
  cbn [step] in Hstep.
  destruct (nth_error (analyses_in_flight s) i) as [p|] eqn:Hp;
    [|discriminate].
  assert (Hbusy : loading s = true).
  { destruct (loading s); [reflexivity|]. rewrite Hfl in Hp.
    destruct i; discriminate. }
  specialize (Herr Hbusy).
  injection Hstep as <-. unfold handleAnalyze_settled in *.
  rewrite Hparse in *. cbn in *.
  repeat split; try assumption.
  unfold can_analyze, dashboardView, screen; cbn.
  destruct (hasProfile s) eqn:Hh; cbn.
  - destruct (Tab_eqb (activeTab s) TabProfile); [reflexivity|].
    unfold analyze_button; cbn. rewrite Herr, Htype. reflexivity.
  - destruct (Tab_eqb (activeTab s) TabProfile); cbn; [reflexivity|].
    destruct (sampleMode s); [|reflexivity].
    specialize (Hsample eq_refl). congruence.
Qed.

(** ** A stored history of more than 20 entries *)

(** C3.  Over a storage that holds 25 history entries the mount shows all
    25: the effect sets the parsed array as it is.  They stay 25 while the
    first analysis is in flight, and only its success, through
    [saveHistory], cuts the history to 20. *)
Theorem oversized_stored_history_is_shown :
  let s0 := startup "session_0" (initial oversized_storage) in
  let s1 := handleAnalyze s0 in
  let s2 :=
    handleAnalyze_settled (clock_at 30) SAMPLE_PROFILE
      (Resolved (envelope income_payload)) (with_analyses_in_flight [] s1) in
  reachable s0
  /\ length (history s0) = 25%nat
  /\ ~ (length (history s0) <= 20)%nat
  /\ run [ClickAnalyze;
           AnalysisSettles 0 (clock_at 30) (Resolved (envelope income_payload))]
          s0 = Some s2
  /\ length (history s1) = 25%nat
  /\ length (history s2) = 20%nat.
Proof.
  cbv zeta. split; [apply reachable_startup|].
  split; [vm_compute; reflexivity|].
  split; [vm_compute; lia|].
  split; [vm_compute; reflexivity|].
  split; vm_compute; reflexivity.
Qed.

End Dashboard.

(** ** Closed examples

    The theorems above hold for every serializer; the examples below run
    the page with [stringify_sample]. *)

Lemma parse_failure_or_no_payload_is_null_witness :
  parseAgentResponse stringify_sample
    (JObj [("success", JBool false);
           ("response", JObj [("result", income_payload)])]) = None
  /\ parseAgentResponse stringify_sample
       (JObj [("success", JBool true); ("response", JObj [])]) = None.
Proof.
  split.
  - apply (parse_failure_or_no_payload_is_null stringify_sample).
    left. reflexivity.
  - apply (parse_failure_or_no_payload_is_null stringify_sample).
    right. reflexivity.
Defined.

(** C1 as stated fails: the key [income_summary] is present, holding
    [null], and the payload carries [safe_to_spend = 5]; the function takes
    the conversational branch and returns [safe_to_spend = 0]. *)
Lemma present_null_key_counterexample :
  has_key "income_summary" (unwrapped null_income_payload) = true
  /\ parseAgentResponse stringify_sample (envelope null_income_payload)
     = Some (conversational_report (stringify_sample null_income_payload))
  /\ ~ (exists r,
          parseAgentResponse stringify_sample (envelope null_income_payload)
          = Some r
          /\ permissive_copy (unwrapped null_income_payload) r).
Proof.
  split; [reflexivity|]. split; [reflexivity|].
  intros (r & Hparse & Hcopy).
  assert (Hr : r = conversational_report (stringify_sample null_income_payload))
    by (cbv in Hparse |- *; congruence).
  destruct Hcopy as (_ & _ & _ & _ & _ & _ & _ & _ & Hsafe & _).
  specialize (Hsafe (Finite (inject_Z 5)) eq_refl).
  rewrite Hr in Hsafe. discriminate Hsafe.
Qed.

Lemma parse_structured_when_truthy_key_witness :
  exists r,
    parseAgentResponse stringify_sample (envelope cards_only_payload) = Some r
    /\ permissive_copy (unwrapped (payload (envelope cards_only_payload))) r.
Proof.
  apply (parse_structured_when_truthy_key stringify_sample
           (envelope cards_only_payload)).
  - reflexivity.
  - right. left. reflexivity.
Defined.

(** C4 as stated fails: a payload with cards and no [income_summary] gives
    a report whose [income_summary] is [null], so it is not structured, and
    whose [credit_cards] is not empty, so it is not conversational. *)
Lemma cards_only_report_counterexample :
  exists r,
    parseAgentResponse stringify_sample (envelope cards_only_payload) = Some r
    /\ income_summary r = JNull
    /\ credit_cards r <> []
    /\ ~ is_conversational r.
Proof.
  exists (structured_report cards_only_payload).
  split; [reflexivity|]. split; [reflexivity|]. split; [discriminate|].
  unfold is_conversational. discriminate.
Qed.

Lemma parse_report_shape_witness :
  (looks_structured (unwrapped (payload (envelope cards_only_payload))) = true
   /\ structured_report cards_only_payload
      = structured_report (unwrapped (payload (envelope cards_only_payload)))
   /\ (truthy (get "income_summary"
                 (unwrapped (payload (envelope cards_only_payload)))) = true ->
       income_summary (structured_report cards_only_payload) <> JNull))
  \/ (looks_structured (unwrapped (payload (envelope cards_only_payload)))
      = false
      /\ is_conversational (structured_report cards_only_payload)).
Proof.
  apply (parse_report_shape stringify_sample (envelope cards_only_payload)).
  reflexivity.
Defined.

(** C6 as stated fails: the payload [{result: {credit_cards: [...]}}] has
    none of the three keys, and the function returns the structured report
    of what the wrapper holds; the payload [{result: {text: "hi"}}] has none
    of them before or after unwrapping, and [follow_up_response] is the
    serialized wrapper, not the [text] found after unwrapping; the empty
    string has none of them either, and the function returns [null]. *)
Lemma key_free_payload_counterexample :
  (has_key "income_summary" (wrap "result" cards_only_payload) = false
   /\ has_key "credit_cards" (wrap "result" cards_only_payload) = false
   /\ has_key "category_breakdown" (wrap "result" cards_only_payload) = false
   /\ parseAgentResponse stringify_sample
        (envelope (wrap "result" cards_only_payload))
      = Some (structured_report cards_only_payload)
   /\ ~ is_conversational (structured_report cards_only_payload))
  /\ (looks_structured wrapped_text_payload = false
      /\ looks_structured (unwrapped wrapped_text_payload) = false
      /\ get "text" (unwrapped wrapped_text_payload) = JStr "hi"
      /\ parseAgentResponse stringify_sample (envelope wrapped_text_payload)
         = Some (conversational_report (stringify_sample wrapped_text_payload))
      /\ stringify_sample wrapped_text_payload <> JStr "hi")
  /\ parseAgentResponse stringify_sample (envelope (JStr EmptyString)) = None.
Proof.
  repeat split; try reflexivity; discriminate.
Qed.

Lemma parse_conversational_priority_witness :
  exists r,
    parseAgentResponse stringify_sample (envelope wrapped_text_payload) = Some r
    /\ is_conversational r
    /\ picked_by_priority stringify_sample
         (payload (envelope wrapped_text_payload)) (follow_up_response r).
Proof.
  apply (parse_conversational_priority stringify_sample
           (envelope wrapped_text_payload)); reflexivity.
Defined.



(** C2 as stated fails: on the same structured reply the chat path leaves
    the history empty where the analysis path appends an entry; and a reply
    that normalizes through the structured branch without [income_summary]
    replaces the report on the analysis path and not on the chat path. *)
Lemma chat_is_not_analysis_counterexample :
  let s := startup "session_0" (initial sample_storage) in
  let chat o := handleChatSend_settled stringify_sample 1 (Resolved o) s in
  let analysis o :=
    handleAnalyze_settled stringify_sample (clock_at 1) SAMPLE_PROFILE
      (Resolved o) s in
  parseAgentResponse stringify_sample (envelope income_payload)
  = Some (structured_report income_payload)
  /\ report (chat (envelope income_payload))
     = Some (structured_report income_payload)
  /\ history (chat (envelope income_payload)) = []
  /\ history (analysis (envelope income_payload))
     = [new_entry (clock_at 1) (structured_report income_payload)
          SAMPLE_PROFILE]
  /\ parseAgentResponse stringify_sample (envelope cards_only_payload)
     = Some (structured_report cards_only_payload)
  /\ report (chat (envelope cards_only_payload)) = None
  /\ report (analysis (envelope cards_only_payload))
     = Some (structured_report cards_only_payload).
Proof.
  repeat split; reflexivity.
Qed.

Lemma chat_reply_replaces_report_witness :
  let s := startup "session_0" (initial sample_storage) in
  let chat :=
    handleChatSend_settled stringify_sample 1
      (Resolved (envelope income_payload)) s in
  let analysis :=
    handleAnalyze_settled stringify_sample (clock_at 1) SAMPLE_PROFILE
      (Resolved (envelope income_payload)) s in
  report chat = Some (structured_report income_payload)
  /\ report analysis = Some (structured_report income_payload)
  /\ history chat = history s
  /\ localStorage chat = localStorage s
  /\ loading chat = loading s
  /\ error chat = error s
  /\ history analysis
     = firstn 20 (new_entry (clock_at 1) (structured_report income_payload)
                    SAMPLE_PROFILE :: history s).
Proof.
  apply (chat_reply_replaces_report stringify_sample 1 (clock_at 1)
           SAMPLE_PROFILE (envelope income_payload)
           (structured_report income_payload)
           (startup "session_0" (initial sample_storage))).
  - reflexivity.
  - reflexivity.
Defined.

Lemma history_capped_newest_first_witness :
  let s := record_all twenty_one_runs (initial empty_storage) in
  (length (history s) <= 20)%nat
  /\ history s = map entry_of (firstn 20 (rev twenty_one_runs))
  /\ length (history s) = 20%nat
  /\ NoDup (history s).
Proof.
  destruct (history_capped_newest_first twenty_one_runs (initial empty_storage))
    as [Hcap Hmany].
  - left. cbn. lia.
  - destruct Hmany as (Heq & Hlen & Hnodup).
    + cbn. lia.
    + split; [exact Hcap|]. split; [exact Heq|]. split; [exact Hlen|].
      apply Hnodup.
      repeat (constructor; [cbn; intuition discriminate|]). constructor.
Defined.

Lemma one_analysis_in_flight_witness :
  let s := handleAnalyze (startup "session_0" (initial sample_storage)) in
  loading s = true
  /\ (length (analyses_in_flight s) <= 1)%nat
  /\ can_analyze s = false
  /\ step stringify_sample ClickAnalyze s = None.
Proof.
  cbv zeta.
  assert (Hreach : reachable stringify_sample
            (handleAnalyze (startup "session_0" (initial sample_storage)))).
  { apply (reachable_step stringify_sample
             (startup "session_0" (initial sample_storage)) _ ClickAnalyze).
    - apply reachable_startup.
    - reflexivity. }
  destruct (one_analysis_in_flight stringify_sample _ Hreach)
    as (Hone & _ & Hbusy).
  destruct (Hbusy eq_refl) as (Hoff & Hnone & _).
  split; [reflexivity|]. split; [exact Hone|]. split; [exact Hoff|exact Hnone].
Defined.

(** ** Closed examples for the page, the form and the renderer *)

Lemma busy_page_run :
  run stringify_sample busy_run (startup "session_0" (initial sample_storage))
  = Some busy_page.
Proof. vm_compute. reflexivity. Qed.

Lemma busy_page_reachable : reachable stringify_sample busy_page.
Proof.
  apply (run_reachable stringify_sample busy_run
           (startup "session_0" (initial sample_storage))).
  - apply reachable_startup.
  - exact busy_page_run.
Qed.

Lemma every_call_carries_session_witness :
  sessionId busy_page = "session_0"
  /\ forall c, In c (calls busy_page) ->
               agentId c = MANAGER_AGENT_ID /\ session_id c = "session_0".
Proof.
  apply (every_call_carries_session stringify_sample sample_storage
           "session_0" busy_run busy_page).
  vm_compute. reflexivity.
Defined.

Lemma one_chat_in_flight_witness :
  (chats_in_flight busy_page <= 1)%nat
  /\ (chats_in_flight busy_page = 1%nat <-> chatLoading busy_page = true)
  /\ (chatLoading busy_page = true ->
      forall time text,
        step stringify_sample (ChatSend time text) busy_page = None).
Proof.
  apply (one_chat_in_flight stringify_sample busy_page).
  exact busy_page_reachable.
Defined.

Lemma only_coordinator_is_shown_active_witness :
  exists busy,
    AgentStatusPanel (activeAgentId busy_page)
    = [ ("Finance Coordinator", busy);
        ("Email Transaction Agent", false);
        ("Financial Analyst", false) ]
    /\ (busy = true -> loading busy_page = true \/ chatLoading busy_page = true).
Proof.
  apply (only_coordinator_is_shown_active stringify_sample busy_page).
  exact busy_page_reachable.
Defined.

Lemma dashboard_has_profile_witness :
  let s := startup "session_0" (initial sample_storage) in
  screen s = MainScreen
  /\ (exists p, profile s = Some p)
  /\ {| props_report := None; props_loading := false; props_error := None |}
     = {| props_report := report s; props_loading := loading s;
          props_error := error s |}.
Proof.
  apply (dashboard_has_profile stringify_sample
           (startup "session_0" (initial sample_storage))).
  - apply reachable_startup.
  - vm_compute. reflexivity.
Defined.

Lemma analyze_click_sends_active_profile_witness :
  let s := startup "session_0" (initial sample_storage) in
  let s' := handleAnalyze s in
  exists p,
    profile s = Some p
    /\ calls s' = (calls s ++ [ {| message := analyze_message p;
                                   agentId := MANAGER_AGENT_ID;
                                   session_id := sessionId s |} ])%list
    /\ analyses_in_flight s' = [p]
    /\ loading s' = true
    /\ error s' = None
    /\ report s' = report s.
Proof.
  apply (analyze_click_sends_active_profile stringify_sample
           (startup "session_0" (initial sample_storage))).
  - apply reachable_startup.
  - vm_compute. reflexivity.
Defined.

Lemma failed_analysis_keeps_report_witness :
  let s := handleAnalyze (startup "session_0" (initial sample_storage)) in
  let s' :=
    handleAnalyze_settled stringify_sample (clock_at 1) SAMPLE_PROFILE
      (Resolved (JObj [("success", JBool false)])) s in
  report s' = report s
  /\ history s' = history s
  /\ profile s' = profile s
  /\ localStorage s' = localStorage s
  /\ loading s' = false
  /\ activeAgentId s' = None
  /\ error s'
     = Some "Could not parse the financial analysis. Please try again.".
Proof.
  apply (failed_analysis_keeps_report stringify_sample (clock_at 1)
           SAMPLE_PROFILE (Resolved (JObj [("success", JBool false)]))).
  vm_compute. reflexivity.
Defined.

Lemma loading_page_reachable : reachable stringify_sample loading_page.
Proof.
  apply (reachable_step stringify_sample
           (startup "session_0" (initial sample_storage)) _ ClickAnalyze).
  - apply reachable_startup.
  - vm_compute. reflexivity.
Qed.

Lemma history_changes_only_on_success_witness :
  exists i clock result r p,
    AnalysisSettles 0 (clock_at 1) (Resolved (envelope income_payload))
    = AnalysisSettles i clock (Resolved result)
    /\ parseAgentResponse stringify_sample result = Some r
    /\ nth_error (analyses_in_flight loading_page) i = Some p
    /\ history
         (handleAnalyze_settled stringify_sample (clock_at 1) SAMPLE_PROFILE
            (Resolved (envelope income_payload))
            (with_analyses_in_flight [] loading_page))
       = firstn 20 (new_entry clock r p :: history loading_page).
Proof.
  apply (history_changes_only_on_success stringify_sample
           (AnalysisSettles 0 (clock_at 1) (Resolved (envelope income_payload)))
           loading_page).
  - vm_compute. reflexivity.
  - discriminate.
Defined.

Lemma history_capped_along_runs_witness :
  (length (history busy_page) <= 20)%nat.
Proof.
  apply (history_capped_along_runs stringify_sample sample_storage
           "session_0" busy_run busy_page).
  - exact I.
  - vm_compute. reflexivity.
Defined.

Lemma gateway_called_only_on_click_or_send_witness :
  let s := startup "session_0" (initial sample_storage) in
  calls (handleAnalyze s) = calls s
  \/ (exists c, calls (handleAnalyze s) = (calls s ++ [c])%list
                /\ (ClickAnalyze = ClickAnalyze
                    \/ exists time text, ClickAnalyze = ChatSend time text)).
Proof.
  apply (gateway_called_only_on_click_or_send stringify_sample ClickAnalyze
           (startup "session_0" (initial sample_storage))).
  vm_compute. reflexivity.
Defined.

Lemma newest_entry_reproduces_analysis_witness :
  let s1 :=
    handleAnalyze_settled stringify_sample (clock_at 1) SAMPLE_PROFILE
      (Resolved (envelope income_payload)) loading_page in
  let s2 :=
    handleViewHistoryEntry
      (new_entry (clock_at 1) (structured_report income_payload) SAMPLE_PROFILE)
      s1 in
  nth_error (history s1) 0
  = Some (new_entry (clock_at 1) (structured_report income_payload)
            SAMPLE_PROFILE)
  /\ report s2 = Some (structured_report income_payload)
  /\ profile s2 = Some SAMPLE_PROFILE
  /\ hasProfile s2 = true
  /\ activeTab s2 = TabDashboard.
Proof.
  apply (newest_entry_reproduces_analysis stringify_sample (clock_at 1)
           SAMPLE_PROFILE (envelope income_payload)
           (structured_report income_payload) loading_page).
  - vm_compute. reflexivity.
  - vm_compute. reflexivity.
Defined.

Lemma storage_holds_live_history_witness :
  ((writable sample_storage = true ->
    forallb entry_json_safe
      (history (analysed_over stringify_sample sample_storage)) = true ->
    forall h,
      finance_history
        (localStorage (analysed_over stringify_sample sample_storage))
      = Some (Doc _ h) ->
      history (analysed_over stringify_sample sample_storage) = h)
   /\ (writable sample_storage = false ->
       localStorage (analysed_over stringify_sample sample_storage)
       = sample_storage))
  /\ forallb entry_json_safe
       (history (analysed_over stringify_sample sample_storage)) = true
  /\ localStorage (analysed_over stringify_sample full_storage) = full_storage
  /\ length (history (analysed_over stringify_sample full_storage)) = 1%nat.
Proof.
  split; [|split; [|split]].
  - apply (storage_holds_live_history stringify_sample sample_storage
             "session_0" analysis_run
             (analysed_over stringify_sample sample_storage)).
    vm_compute. reflexivity.
  - vm_compute. reflexivity.
  - apply (storage_holds_live_history stringify_sample full_storage
             "session_0" analysis_run
             (analysed_over stringify_sample full_storage)).
    + vm_compute. reflexivity.
    + reflexivity.
  - vm_compute. reflexivity.
Defined.

Lemma corrupt_history_blocks_profile_witness :
  let s := startup "session_0" (initial corrupt_history_storage) in
  history s = []
  /\ profile s = None
  /\ hasProfile s = false
  /\ screen s = SetupScreen
  /\ localStorage s = corrupt_history_storage.
Proof.
  apply (corrupt_history_blocks_profile corrupt_history_storage "session_0").
  vm_compute. reflexivity.
Defined.

Lemma profile_restored_iff_salary_truthy_witness :
  let s := startup "session_0" (initial zero_salary_storage) in
  profile s = None
  /\ hasProfile s = false
  /\ screen s = SetupScreen
  /\ history s = [].
Proof.
  apply (profile_restored_iff_salary_truthy zero_salary_storage "session_0"
           empty_form).
  - discriminate.
  - vm_compute. reflexivity.
Defined.

Lemma saved_profile_survives_reload_witness :
  let s := initial empty_storage in
  let s1 := handleSaveProfile SAMPLE_PROFILE s in
  profile s1 = Some SAMPLE_PROFILE
  /\ (writable (localStorage s) = true ->
      profile (startup "session_1" (initial (localStorage s1)))
      = Some SAMPLE_PROFILE
      /\ hasProfile (startup "session_1" (initial (localStorage s1))) = true)
  /\ (writable (localStorage s) = false -> localStorage s1 = localStorage s).
Proof.
  apply (saved_profile_survives_reload SAMPLE_PROFILE (initial empty_storage)
           "session_1").
  - vm_compute. reflexivity.
  - vm_compute. reflexivity.
  - discriminate.
Defined.

Lemma form_edits_never_hold_NaN_witness :
  let form :=
    fold_left (fun f e => edit parseFloat_sample e f) sample_edits empty_form in
  form_has_no_NaN form = true
  /\ save_disabled form = negb (number_gt0 (salary form))
  /\ salary form = Finite 8500
  /\ cards form = [ {| card_name := "Visa"; card_limit := Finite 0 |} ].
Proof.
  destruct (form_edits_never_hold_NaN parseFloat_sample sample_edits empty_form
              eq_refl) as [Hno Hsave].
  split; [exact Hno|]. split; [exact Hsave|]. split; vm_compute; reflexivity.
Defined.

Lemma numbered_line_drops_number_witness :
  render_line (units "1. tea") = LiDecimal (formatInline (units "tea"))
  /\ render_line (units "27. tea") = LiDecimal (formatInline (units "tea")).
Proof.
  split.
  - change (units "1. tea")
      with (units "1" ++ 46%N :: 32%N :: units "tea")%list.
    apply (numbered_line_drops_number (units "1") 32%N (units "tea"));
      [discriminate|vm_compute; reflexivity|vm_compute; reflexivity].
  - change (units "27. tea")
      with (units "27" ++ 46%N :: 32%N :: units "tea")%list.
    apply (numbered_line_drops_number (units "27") 32%N (units "tea"));
      [discriminate|vm_compute; reflexivity|vm_compute; reflexivity].
Defined.

Lemma no_analyze_button_after_untyped_report_witness :
  let s' :=
    handleAnalyze_settled stringify_sample (clock_at 1) SAMPLE_PROFILE
      (Resolved (envelope (JStr "Hello")))
      (with_analyses_in_flight [] loading_page) in
  report s' = Some (conversational_report (JStr "Hello"))
  /\ error s' = None /\ loading s' = false
  /\ can_analyze s' = false.
Proof.
  apply (no_analyze_button_after_untyped_report stringify_sample 0 (clock_at 1)
           (envelope (JStr "Hello")) (conversational_report (JStr "Hello"))
           loading_page).
  - exact loading_page_reachable.
  - vm_compute. reflexivity.
  - vm_compute. reflexivity.
  - vm_compute. reflexivity.
Defined.
